(** * eptools: the Latin text preprocessor of [posts/words-clouds/eptools.py]

    A shallow embedding of [remove_diacriticals] and [preprocess].

    Python strings are lists of code points ([Z]).  The primitives of the
    Python standard library that the two functions call are modelled in
    [Module Py]; the ones that depend on the Unicode Character Database, on
    the HTML entity table or on CLTK are fields of the record [PyLib], so
    every general theorem holds for any such library.  Statements evaluated
    at concrete inputs use the instance [RefLib], whose domain of agreement
    with CPython is stated where it is defined. *)

From Stdlib Require Import ZArith Ascii String.
From stdpp Require Import gmap list strings.

Local Open Scope Z_scope.

Abbreviation text := (list Z).

(** ** Exceptions *)

Inductive exn : Type :=
| ValueError (msg : string)
| TypeError (msg : string).

Inductive exc (A : Type) : Type :=
| Return (a : A)
| Raise (e : exn).

Arguments Return {A} a.
Arguments Raise {A} e.

#[global] Instance exc_ret : MRet exc := λ A a, Return a.
#[global] Instance exc_bind : MBind exc := λ A B k m,
  match m with
  | Return a => k a
  | Raise e => Raise e
  end.

Definition returns {A} (m : exc A) : Prop := ∃ a, m = Return a.

(** ** The primitives of the Python standard library *)

Module Py.

(** A literal of ASCII characters as a Python string. *)
Definition str (s : string) : text :=
  (λ a, Z.of_N (N_of_ascii a)) <$> list_ascii_of_string s.

(** [sys.maxunicode] *)
Definition sys_maxunicode : Z := 1114111.

(** [range(n)] *)
Definition range (n : Z) : list Z := seqZ 0 n.

(** [chr(c)]: a one-character string, here its code point;
    [ValueError] outside [range(0x110000)]. *)
Definition chr (c : Z) : exc Z :=
  if bool_decide (0 ≤ c < 1114112) then Return c
  else Raise (ValueError "chr() arg not in range(0x110000)").

(** [str.isspace] of one character, which is also what [\s] matches in a
    [str] pattern and what [str.split()] and [str.strip()] take for
    whitespace. *)
Definition isspace (c : Z) : bool :=
  bool_decide (9 ≤ c ≤ 13 ∨ 28 ≤ c ≤ 32 ∨ c = 0x85 ∨ c = 0xA0 ∨ c = 0x1680
               ∨ 0x2000 ≤ c ≤ 0x200A ∨ c = 0x2028 ∨ c = 0x2029
               ∨ c = 0x202F ∨ c = 0x205F ∨ c = 0x3000).

Fixpoint lstrip (s : text) : text :=
  match s with
  | [] => []
  | c :: r => if isspace c then lstrip r else s
  end.

Fixpoint rstrip (s : text) : text :=
  match s with
  | [] => []
  | c :: r =>
      match rstrip r with
      | [] => if isspace c then [] else [c]
      | r' => c :: r'
      end
  end.

(** [s.strip()] *)
Definition strip (s : text) : text := rstrip (lstrip s).

(** [sep.join(parts)] *)
Fixpoint join (sep : text) (parts : list text) : text :=
  match parts with
  | [] => []
  | [p] => p
  | p :: ps => p ++ sep ++ join sep ps
  end.

(** [s.startswith(prefix)] *)
Fixpoint startswith (prefix s : text) : bool :=
  match prefix, s with
  | [], _ => true
  | p :: ps, c :: r => bool_decide (c = p) && startswith ps r
  | _ :: _, [] => false
  end.

(** The pieces of [s] between the occurrences of a non-empty [sep], taken
    leftmost and without overlap; empty pieces are kept.  [skip] counts the
    characters of the current occurrence that are still to be consumed. *)
Fixpoint split_from (sep : text) (skip : nat) (s : text) : list text :=
  match s with
  | [] => [[]]
  | c :: r =>
      match skip with
      | S k => split_from sep k r
      | O =>
          if startswith sep s then [] :: split_from sep (length sep - 1) r
          else match split_from sep 0 r with
               | w :: ws => (c :: w) :: ws
               | [] => [[c]]
               end
      end
  end.

(** [s.split(sep)]: [ValueError] on the empty separator. *)
Definition split (sep : text) (s : text) : exc (list text) :=
  match sep with
  | [] => Raise (ValueError "empty separator")
  | _ => Return (split_from sep 0 s)
  end.

(** [s.split()]: the maximal runs of non-whitespace characters. *)
Fixpoint split_ws (s : text) : list text :=
  match s with
  | [] => []
  | c :: r =>
      if isspace c then split_ws r
      else
        let rest := split_ws r in
        match r with
        | [] => [[c]]
        | d :: _ =>
            if isspace d then [c] :: rest
            else match rest with
                 | w :: ws => (c :: w) :: ws
                 | [] => [[c]]
                 end
        end
  end.

(** [s.translate(table)]: a code point that is not a key is kept, one mapped
    to [None] is deleted, one mapped to a string is replaced by it. *)
Definition translate (table : gmap Z (option text)) (s : text) : text :=
  s ≫= λ c, match table !! c with
            | None => [c]
            | Some None => []
            | Some (Some r) => r
            end.

(** [{key: value for key in s}], as its items in iteration order; iterating
    over a string yields its characters as strings of length one. *)
Definition dict_for_key_in (s : text) (value : text) : list (text * text) :=
  (λ c, ([c], value)) <$> s.

(** [str.maketrans(d)] for a dict with string keys: each key must have
    length one and is replaced by its ordinal; a later item overrides an
    earlier one with the same key. *)
Definition maketrans (items : list (text * text)) : exc (gmap Z (option text)) :=
  foldl (λ acc kv,
           tbl ← acc;
           match kv.1 with
           | [c] => Return (<[c := Some kv.2]> tbl)
           | _ => Raise (ValueError "string keys in translate table must be of length 1")
           end)
        (Return ∅) items.

(** [dict.fromkeys(keys)]: every key is mapped to [None]. *)
Definition dict_fromkeys (keys : list Z) : gmap Z (option text) :=
  foldl (λ tbl k, <[k := None]> tbl) ∅ keys.

(** The generator [(c for c in l if p(c))], where the test may raise. *)
Fixpoint generate_if (p : Z → exc bool) (l : list Z) : exc (list Z) :=
  match l with
  | [] => Return []
  | c :: r =>
      b ← p c;
      cs ← generate_if p r;
      Return (if b : bool then c :: cs else cs)
  end.

(** [re.sub(pattern, repl, s)] for a pattern that never matches the empty
    string: [m s] is the length of the match of the pattern anchored at the
    head of [s], if there is one; matches are taken leftmost and do not
    overlap.  [skip] counts the characters of the current match that are
    still to be consumed. *)
Fixpoint re_sub_from (m : text → option nat) (repl : text) (skip : nat)
    (s : text) : text :=
  match s with
  | [] => []
  | c :: r =>
      match skip with
      | S k => re_sub_from m repl k r
      | O =>
          match m s with
          | Some (S k) => repl ++ re_sub_from m repl k r
          | _ => c :: re_sub_from m repl 0 r
          end
      end
  end.

Definition re_sub (m : text → option nat) (repl : text) (s : text) : text :=
  re_sub_from m repl 0 s.

End Py.

(** ** The library functions taken as given

    [html.unescape], [str.lower], CLTK's [JVReplacer.replace] and the
    [unicodedata] module.  [html.unescape] can raise: it converts a decimal
    character reference with [int], which raises [ValueError] when the
    reference has more digits than the interpreter's limit for integer
    string conversion.  The others return for every string. *)

Inductive form : Type := NFC | NFD.

Record PyLib : Type := {
  html_unescape : text → exc text;
  str_lower : text → text;
  JVReplacer_replace : text → text;
  unicodedata_normalize : form → text → text;
  (** [unicodedata.combining]: the canonical combining class *)
  unicodedata_combining : Z → Z;
  (** whether [unicodedata.category] is one of [Mn], [Mc], [Me] *)
  unicodedata_is_mark : Z → bool;
}.

(** ** The program *)

(** The keyword parameters of [preprocess], with their defaults. *)
Record Options : Type := {
  lower : bool;
  normalize : bool;
  punctuation : bool;
  numbers : bool;
  unhyphenate : bool;
  remove_lines : bool;
  remove_spaces : bool;
  entities : bool;
  diacriticals : bool;
  fill : text;
}.

Definition default_options : Options :=
  {| lower := true; normalize := true; punctuation := false;
     numbers := false; unhyphenate := false; remove_lines := false;
     remove_spaces := false; entities := false; diacriticals := true;
     fill := [32] |}.

(** The local variable [punctuation] holds the flag first and the string of
    punctuation characters later. *)
Inductive pyval : Type :=
| PyBool (b : bool)
| PyStr (s : text).

(** [bool(v)] *)
Definition truth (v : pyval) : bool :=
  match v with
  | PyBool b => b
  | PyStr s => bool_decide (s ≠ [])
  end.

(** The local variables of a call of [preprocess]: [text] and the ten
    parameters. *)
Record Locals : Type := {
  v_text : text;
  v_lower : bool;
  v_normalize : bool;
  v_punctuation : pyval;
  v_numbers : bool;
  v_unhyphenate : bool;
  v_remove_lines : bool;
  v_remove_spaces : bool;
  v_entities : bool;
  v_diacriticals : bool;
  v_fill : text;
}.

Definition set_text (l : Locals) (s : text) : Locals :=
  {| v_text := s; v_lower := v_lower l; v_normalize := v_normalize l;
     v_punctuation := v_punctuation l; v_numbers := v_numbers l;
     v_unhyphenate := v_unhyphenate l; v_remove_lines := v_remove_lines l;
     v_remove_spaces := v_remove_spaces l; v_entities := v_entities l;
     v_diacriticals := v_diacriticals l; v_fill := v_fill l |}.

Definition set_punctuation (l : Locals) (v : pyval) : Locals :=
  {| v_text := v_text l; v_lower := v_lower l; v_normalize := v_normalize l;
     v_punctuation := v; v_numbers := v_numbers l;
     v_unhyphenate := v_unhyphenate l; v_remove_lines := v_remove_lines l;
     v_remove_spaces := v_remove_spaces l; v_entities := v_entities l;
     v_diacriticals := v_diacriticals l; v_fill := v_fill l |}.

(** The locals on entry: the call [preprocess(text, **o)]. *)
Definition bind_arguments (s : text) (o : Options) : Locals :=
  {| v_text := s; v_lower := lower o; v_normalize := normalize o;
     v_punctuation := PyBool (punctuation o); v_numbers := numbers o;
     v_unhyphenate := unhyphenate o; v_remove_lines := remove_lines o;
     v_remove_spaces := remove_spaces o; v_entities := entities o;
     v_diacriticals := diacriticals o; v_fill := fill o |}.

(** The characters of the pattern [[-»—]]. *)
Definition is_hyphen (c : Z) : bool :=
  bool_decide (c = 0x2D ∨ c = 0xBB ∨ c = 0x2014).

(** The pattern [[-»—]\s?\n] anchored at the head of [s].  [\s?] is greedy:
    a whitespace character followed by a newline is tried first.  The flag
    [re.MULTILINE] only changes [^] and [$], which the pattern does not
    use. *)
Definition hyphen_break (s : text) : option nat :=
  match s with
  | h :: w :: r =>
      if is_hyphen h then
        match r with
        | n :: _ =>
            if Py.isspace w && bool_decide (n = 10) then Some 3%nat
            else if bool_decide (w = 10) then Some 2%nat else None
        | [] => if bool_decide (w = 10) then Some 2%nat else None
        end
      else None
  | _ => None
  end.

(** The number of spaces (U+0020) at the head of [s]. *)
Fixpoint leading_spaces (s : text) : nat :=
  match s with
  | c :: r => if bool_decide (c = 32) then S (leading_spaces r) else O
  | [] => O
  end.

(** The pattern [ +] anchored at the head of [s]. *)
Definition spaces_run (s : text) : option nat :=
  match leading_spaces s with
  | O => None
  | n => Some n
  end.

(** The string assigned to [punctuation] on line 60. *)
Definition punctuation_chars : text :=
  [0x22; 0x23; 0x24; 0x25; 0x26; 0x27; 0x28; 0x29; 0x2A; 0x2B; 0x2C; 0x2F;
   0x3A; 0x3B; 0x3C; 0x3D; 0x3E; 0x40; 0x5B; 0x5C; 0x5D; 0x5E; 0x5F; 0x60;
   0x7B; 0x7C; 0x7D; 0x7E; 0x2E; 0x3F; 0x21; 0xAB; 0xBB; 0x2014; 0x201C;
   0x2D; 0x201D].

(** The string assigned to [misc] on line 61. *)
Definition misc_chars : text :=
  [0xA1; 0xA3; 0xA4; 0xA5; 0xA6; 0xA7; 0xA8; 0xA9; 0xAF; 0xB0; 0xB1; 0xB2;
   0xB3; 0xB4; 0xB5; 0xB6; 0xB7; 0xB8; 0xB9; 0xBA; 0xBC; 0xBD; 0xBE; 0xBF;
   0xF7; 0xB7; 0x2013; 0x2018; 0x2019; 0x2020; 0x2022; 0x2184; 0x221E;
   0x23D1; 0x3008; 0x3009; 0xFF08; 0xFF09].

Definition digit_chars : text := Py.str "0123456789".

Section Program.

Context (L : PyLib).

(** [remove_diacriticals], lines 19-29. *)
Definition remove_diacriticals (text_with_diacriticals : text) : exc text :=
  keys ← Py.generate_if
            (λ c, ch ← Py.chr c;
                  Return (negb (unicodedata_combining L ch =? 0)))
            (Py.range Py.sys_maxunicode);
  let combining_character_table := Py.dict_fromkeys keys in
  let text_with_diacriticals :=
    unicodedata_normalize L NFD text_with_diacriticals in
  let text_without_diacriticals :=
    Py.translate combining_character_table text_with_diacriticals in
  Return text_without_diacriticals.

(** The statements of [preprocess], lines 46-84, one definition each. *)

Definition if_not_entities (l : Locals) : exc Locals :=
  if negb (v_entities l) then
    s ← html_unescape L (v_text l);
    Return (set_text l s)
  else Return l.

Definition if_unhyphenate (l : Locals) : exc Locals :=
  if v_unhyphenate l
  then Return (set_text l (Py.re_sub hyphen_break [] (v_text l)))
  else Return l.

Definition if_lower (l : Locals) : exc Locals :=
  if v_lower l
  then Return (set_text l (str_lower L (v_text l)))
  else Return l.

Definition if_normalize (l : Locals) : exc Locals :=
  if v_normalize l
  then Return (set_text l (JVReplacer_replace L (v_text l)))
  else Return l.

Definition if_not_punctuation (l : Locals) : exc Locals :=
  if negb (truth (v_punctuation l)) then
    let l := set_punctuation l (PyStr punctuation_chars) in
    let misc := misc_chars in
    misc ← match v_punctuation l with
           | PyStr p => Return (misc ++ p)
           | PyBool _ => Raise (TypeError "can only concatenate str to str")
           end;
    translator ← Py.maketrans (Py.dict_for_key_in misc (v_fill l));
    Return (set_text l (Py.translate translator (v_text l)))
  else Return l.

Definition if_not_numbers (l : Locals) : exc Locals :=
  if negb (v_numbers l) then
    translator ← Py.maketrans (Py.dict_for_key_in digit_chars (v_fill l));
    Return (set_text l (Py.translate translator (v_text l)))
  else Return l.

Definition if_remove_lines (l : Locals) : exc Locals :=
  if v_remove_lines l then
    parts ← Py.split [10] (v_text l);
    Return (set_text l (Py.join [32] parts))
  else Return l.

Definition if_remove_spaces (l : Locals) : exc Locals :=
  if v_remove_spaces l
  then Return (set_text l (Py.join (v_fill l) (Py.split_ws (v_text l))))
  else Return l.

Definition if_not_diacriticals (l : Locals) : exc Locals :=
  if negb (v_diacriticals l) then
    s ← remove_diacriticals (v_text l);
    Return (set_text l s)
  else Return l.

Definition fix_spacing (l : Locals) : exc Locals :=
  Return (set_text l (Py.re_sub spaces_run [32] (v_text l))).

Definition recompose (l : Locals) : exc Locals :=
  Return (set_text l (unicodedata_normalize L NFC (v_text l))).

(** The statements in program order. *)
Definition statements : list (Locals → exc Locals) :=
  [if_not_entities; if_unhyphenate; if_lower; if_normalize;
   if_not_punctuation; if_not_numbers; if_remove_lines; if_remove_spaces;
   if_not_diacriticals; fix_spacing; recompose].

(** Running statements one after the other; an exception ends the run. *)
Definition run (stmts : list (Locals → exc Locals)) (l : Locals) : exc Locals :=
  foldl (λ acc stmt, l ← acc; stmt l) (Return l) stmts.

(** [preprocess], lines 32-86. *)
Definition preprocess (s : text) (o : Options) : exc text :=
  l ← run statements (bind_arguments s o);
  Return (Py.strip (v_text l)).

End Program.

(** ** A reference library

    An excerpt of CPython's library, enough to evaluate the program at the
    concrete inputs used below.  It agrees with CPython 3 (Unicode 14) as
    follows.
    - [html_unescape] decodes the reference [&amp;] and raises on a decimal
      reference of more than 4300 digits (the default limit for integer
      string conversion, CPython 3.11): it is [html.unescape] on every
      string in which each [&] starts [&amp;] or is followed by [#] and
      more than 4300 decimal digits.
    - [str_lower] is [str.lower] on strings over Basic Latin and the code
      points named in the next two items.
    - [JVReplacer_replace] replaces [j], [v], [J], [V] by [i], [u], [I],
      [U], as CLTK's [JVReplacer] does on every string.
    - [unicodedata_normalize] maps U+2329 and U+232A to their canonical
      singletons U+3008 and U+3009: it is [unicodedata.normalize], for both
      forms, on strings over Basic Latin, U+2329, U+232A, U+3008, U+3009 and
      U+20DD, and for NFD also when such a string holds marks of
      U+0300..U+0314.
    - [unicodedata_combining] is 230 on U+0300..U+0314 and 0 elsewhere, and
      [unicodedata_is_mark] holds on U+0300..U+036F and U+20DD: both are as
      in the Unicode Character Database on these code points and on the
      ones of the previous item. *)

Module Ref.

Definition amp_reference (s : text) : option nat :=
  if Py.startswith (Py.str "&amp;") s then Some 5%nat else None.

(** The number of decimal digits at the head of [s]. *)
Fixpoint leading_digits (s : text) : Z :=
  match s with
  | c :: r => if bool_decide (48 ≤ c ≤ 57) then 1 + leading_digits r else 0
  | [] => 0
  end.

(** Whether [s] holds [&#] followed by more than 4300 decimal digits. *)
Fixpoint exceeds_limit (s : text) : bool :=
  match s with
  | [] => false
  | c :: r =>
      if bool_decide (c = 38)
         && match r with
            | d :: r' => bool_decide (d = 35) && (4300 <? leading_digits r')
            | [] => false
            end
      then true
      else exceeds_limit r
  end.

Definition unescape (s : text) : exc text :=
  if exceeds_limit s
  then Raise (ValueError "Exceeds the limit (4300 digits) for integer string conversion")
  else Return (Py.re_sub amp_reference [38] s).

Definition lower_char (c : Z) : Z :=
  if bool_decide (65 ≤ c ≤ 90) then c + 32 else c.

Definition jv_char (c : Z) : Z :=
  if bool_decide (c = 106) then 105
  else if bool_decide (c = 118) then 117
  else if bool_decide (c = 74) then 73
  else if bool_decide (c = 86) then 85
  else c.

Definition singleton (c : Z) : Z :=
  if bool_decide (c = 0x2329) then 0x3008
  else if bool_decide (c = 0x232A) then 0x3009
  else c.

Definition combining (c : Z) : Z :=
  if bool_decide (0x300 ≤ c ≤ 0x314) then 230 else 0.

Definition is_mark (c : Z) : bool :=
  bool_decide (0x300 ≤ c ≤ 0x36F ∨ c = 0x20DD).

End Ref.

Definition RefLib : PyLib :=
  {| html_unescape := Ref.unescape;
     str_lower := fmap Ref.lower_char;
     JVReplacer_replace := fmap Ref.jv_char;
     unicodedata_normalize := λ _, fmap Ref.singleton;
     unicodedata_combining := Ref.combining;
     unicodedata_is_mark := Ref.is_mark |}.

(** ** The steps as functions on strings

    The pipeline as the specification words it: twelve steps on the string,
    each enabled by the options of the caller. *)

(** Replace every character of [s] that occurs in [set] by [by_]. *)
Definition replace_chars (set : text) (by_ : text) (s : text) : text :=
  s ≫= λ c, if bool_decide (c ∈ set) then by_ else [c].

Definition when (b : bool) (f : text → text) (s : text) : text :=
  if b then f s else s.

Section Steps.

Context (L : PyLib).

(** The code points that [remove_diacriticals] deletes. *)
Definition deleted (c : Z) : bool :=
  bool_decide (0 ≤ c < Py.sys_maxunicode)
  && negb (unicodedata_combining L c =? 0).

Definition entity_decode (o : Options) (s : text) : exc text :=
  if negb (entities o) then html_unescape L s else Return s.
Definition unhyphenate_lines : text → text := Py.re_sub hyphen_break [].
Definition lowercase : text → text := str_lower L.
Definition spelling_normalize : text → text := JVReplacer_replace L.
Definition punctuation_strip (fill : text) : text → text :=
  replace_chars (misc_chars ++ punctuation_chars) fill.
Definition number_strip (fill : text) : text → text :=
  replace_chars digit_chars fill.
Definition line_join (s : text) : text :=
  Py.join [32] (Py.split_from [10] 0 s).
Definition space_join (fill : text) (s : text) : text :=
  Py.join fill (Py.split_ws s).
Definition diacritic_strip (s : text) : text :=
  filter (λ c, ¬ deleted c) (unicodedata_normalize L NFD s).
Definition whitespace_collapse : text → text := Py.re_sub spaces_run [32].
Definition unicode_recompose : text → text := unicodedata_normalize L NFC.
Definition trim : text → text := Py.strip.

(** Steps 2 to 7, on the decoded text. *)
Definition first_steps (o : Options) (s : text) : text :=
  when (remove_lines o) line_join
    (when (negb (numbers o)) (number_strip (fill o))
      (when (negb (punctuation o)) (punctuation_strip (fill o))
        (when (normalize o) spelling_normalize
          (when (lower o) lowercase
            (when (unhyphenate o) unhyphenate_lines s))))).

(** Steps 2 to 9, the other conditional ones. *)
Definition conditional_steps (o : Options) (s : text) : text :=
  when (negb (diacriticals o)) diacritic_strip
    (when (remove_spaces o) (space_join (fill o)) (first_steps o s)).

(** Steps 2 to 12. *)
Definition steps_after_decoding (o : Options) (s : text) : text :=
  trim (unicode_recompose (whitespace_collapse (conditional_steps o s))).

(** Step 1, which may raise, and then the others. *)
Definition normalize_spec (o : Options) (s : text) : exc text :=
  d ← entity_decode o s;
  Return (steps_after_decoding o d).

(** The locals when the last statement has run, for the decoded text [s]. *)
Definition locals_at_return (o : Options) (s : text) : Locals :=
  set_text
    (set_punctuation (bind_arguments s o)
       (if punctuation o then PyBool true else PyStr punctuation_chars))
    (unicode_recompose (whitespace_collapse (conditional_steps o s))).

End Steps.

(** ** The vocabulary of the properties *)

Definition char_table (set : text) (v : text) : gmap Z (option text) :=
  foldl (λ tbl c, <[c := Some v]> tbl) ∅ set.

(** Whether [s] contains two consecutive spaces (U+0020). *)
Fixpoint has_double_space (s : text) : bool :=
  match s with
  | [] => false
  | c :: r =>
      (bool_decide (c = 32) && bool_decide (head r = Some 32))
      || has_double_space r
  end.

(** Whether [s] begins, or ends, with a whitespace character. *)
Definition starts_with_space (s : text) : bool :=
  match head s with
  | Some c => Py.isspace c
  | None => false
  end.

Definition ends_with_space (s : text) : bool :=
  match last s with
  | Some c => Py.isspace c
  | None => false
  end.

(** A string of whitespace characters only; the empty string is one. *)
Definition blank (s : text) : Prop := Forall (λ c, Py.isspace c) s.

Definition newline_to_space (c : Z) : Z :=
  if bool_decide (c = 10) then 32 else c.

(** The pieces of [s.split()] are not empty and hold no whitespace. *)
Definition word (w : text) : Prop :=
  w ≠ [] ∧ Forall (λ c, Py.isspace c = false) w.

Definition is_digit (c : Z) : bool := bool_decide (48 ≤ c ≤ 57).

Definition digit_free (s : text) : Prop := Forall (λ c, is_digit c = false) s.

Definition keeps_blank (f : text → text) : Prop := ∀ s, blank s → blank (f s).

Definition decodes_blank (L : PyLib) : Prop :=
  ∀ s, blank s → ∃ d, html_unescape L s = Return d ∧ blank d.

(** What the theorems below ask of [unicodedata.normalize]; each holds of
    the Unicode Character Database, where no canonical mapping yields or
    consumes a space or an ASCII digit. *)
Definition normalize_adds_no_digit (L : PyLib) : Prop :=
  ∀ f s, digit_free s → digit_free (unicodedata_normalize L f s).

Definition recompose_keeps_spacing (L : PyLib) : Prop :=
  ∀ s, has_double_space s = false →
       has_double_space (unicodedata_normalize L NFC s) = false.

(** What the next theorem asks of [unicodedata.normalize]: the code points
    of an NFD string are their own canonical decomposition, and recomposing
    a string of such code points that [remove_diacriticals] keeps yields
    code points that it keeps. *)
Definition decomposes_fully (L : PyLib) : Prop :=
  ∀ s, Forall (λ c, unicodedata_normalize L NFD [c] = [c])
         (unicodedata_normalize L NFD s).

Definition composes_without_class (L : PyLib) : Prop :=
  ∀ s, Forall (λ c, deleted L c = false
                    ∧ unicodedata_normalize L NFD [c] = [c]) s →
       Forall (λ c, deleted L c = false) (unicodedata_normalize L NFC s).

Definition without_diacriticals : Options :=
  {| lower := true; normalize := true; punctuation := false;
     numbers := false; unhyphenate := false; remove_lines := false;
     remove_spaces := false; entities := false; diacriticals := false;
     fill := [32] |}.

Definition keeping_punctuation : Options :=
  {| lower := true; normalize := true; punctuation := true;
     numbers := false; unhyphenate := false; remove_lines := false;
     remove_spaces := false; entities := false; diacriticals := true;
     fill := [32] |}.

(** The parameters in [l], the flag [punctuation] left out. *)
Definition other_parameters (l : Locals) : Locals :=
  set_punctuation (set_text l []) (PyBool false).

Definition ascii (s : text) : Prop := Forall (λ c, 0 ≤ c < 128) s.

(** A library that does on ASCII text what CPython does: [html.unescape]
    leaves a string without [&] as it is, [str.lower] maps [A-Z] to [a-z],
    [JVReplacer.replace] maps the four letters, normalization changes
    nothing, and no ASCII code point has a combining class. *)
Record ascii_library (L : PyLib) : Prop := {
  unescape_no_amp :
    ∀ s, Forall (λ c, c ≠ 38) s → html_unescape L s = Return s;
  lower_ascii : ∀ s, ascii s → str_lower L s = Ref.lower_char <$> s;
  replace_ascii : ∀ s, ascii s → JVReplacer_replace L s = Ref.jv_char <$> s;
  normalize_ascii : ∀ f s, ascii s → unicodedata_normalize L f s = s;
  combining_ascii : ∀ c, 0 ≤ c < 128 → unicodedata_combining L c = 0;
}.

(** What is known of each character once [n] steps have run. *)
Definition settled (o : Options) (n : nat) (c : Z) : Prop :=
  0 ≤ c < 128
  ∧ (entities o = false → c ≠ 38)
  ∧ ((3 ≤ n)%nat → lower o = true → Ref.lower_char c = c)
  ∧ ((4 ≤ n)%nat → normalize o = true → Ref.jv_char c = c)
  ∧ ((5 ≤ n)%nat → punctuation o = false →
      c ∉ misc_chars ++ punctuation_chars)
  ∧ ((6 ≤ n)%nat → numbers o = false → c ∉ digit_chars)
  ∧ ((7 ≤ n)%nat → remove_lines o = true → c ≠ 10).

Definition joining_with_underscore : Options :=
  {| lower := true; normalize := true; punctuation := false;
     numbers := false; unhyphenate := false; remove_lines := false;
     remove_spaces := true; entities := false; diacriticals := true;
     fill := Py.str "_" |}.

Definition joining_lines_with_underscore : Options :=
  {| lower := true; normalize := true; punctuation := false;
     numbers := false; unhyphenate := false; remove_lines := true;
     remove_spaces := false; entities := false; diacriticals := true;
     fill := Py.str "_" |}.

Definition unhyphenating_keeping_punctuation : Options :=
  {| lower := true; normalize := true; punctuation := true;
     numbers := false; unhyphenate := true; remove_lines := false;
     remove_spaces := false; entities := false; diacriticals := true;
     fill := [32] |}.

Definition unhyphenating : Options :=
  {| lower := true; normalize := true; punctuation := false;
     numbers := false; unhyphenate := true; remove_lines := false;
     remove_spaces := false; entities := false; diacriticals := true;
     fill := [32] |}.

(** The options [o] with another [fill], and with another [remove_lines]. *)
Definition with_fill (o : Options) (f : text) : Options :=
  {| lower := lower o; normalize := normalize o;
     punctuation := punctuation o; numbers := numbers o;
     unhyphenate := unhyphenate o; remove_lines := remove_lines o;
     remove_spaces := remove_spaces o; entities := entities o;
     diacriticals := diacriticals o; fill := f |}.

Definition with_remove_lines (o : Options) (b : bool) : Options :=
  {| lower := lower o; normalize := normalize o;
     punctuation := punctuation o; numbers := numbers o;
     unhyphenate := unhyphenate o; remove_lines := b;
     remove_spaces := remove_spaces o; entities := entities o;
     diacriticals := diacriticals o; fill := fill o |}.

Definition joining_spaces : Options :=
  {| lower := true; normalize := true; punctuation := false;
     numbers := false; unhyphenate := false; remove_lines := false;
     remove_spaces := true; entities := false; diacriticals := true;
     fill := [32] |}.

Definition keeping_everything : Options :=
  {| lower := true; normalize := true; punctuation := true;
     numbers := true; unhyphenate := false; remove_lines := false;
     remove_spaces := false; entities := false; diacriticals := true;
     fill := [32] |}.

(** An ASCII letter or digit. *)
Definition alphanumeric (c : Z) : Prop :=
  48 ≤ c ≤ 57 ∨ 65 ≤ c ≤ 90 ∨ 97 ≤ c ≤ 122.

(** What is put before each of [n] joined pieces: nothing before the first,
    [sep] before every other one. *)
Definition separators (n : nat) (sep : text) : list text :=
  match n with
  | O => []
  | S k => [] :: replicate k sep
  end.

(** [s] read as the words [ws] between runs of whitespace: [s] is
    [g1 w1 g2 w2 ... gn wn g] for runs of whitespace [g1 ... gn g], of which
    only the first and the last may be empty. *)
Definition words_of (s : text) (ws : list text) : Prop :=
  Forall word ws
  ∧ ∃ gaps g,
      length gaps = length ws
      ∧ Forall blank gaps ∧ blank g
      ∧ Forall (λ x, x ≠ []) (tail gaps)
      ∧ s = concat (zip_with app gaps ws) ++ g.

(** A decimal character reference of 4301 digits. *)
Definition long_reference : text :=
  Py.str "&#" ++ replicate 4301 49 ++ Py.str ";".

(** * Properties *)

(** ** The exception monad *)

Lemma run_cons (f : Locals → exc Locals) fs l :
  run (f :: fs) l = (l' ← f l; run fs l').
Proof.
  unfold run. simpl. destruct (f l) as [l'|e]; simpl; [done|].
  induction fs as [|g fs IH]; simpl; done.
Qed.

Lemma run_nil l : run [] l = Return l.
Proof. done. Qed.

(** ** Translation tables *)

Lemma lookup_foldl_insert (v : option text) (l : text) (m0 : gmap Z (option text)) c :
  foldl (λ tbl k, <[k := v]> tbl) m0 l !! c
  = if bool_decide (c ∈ l) then Some v else m0 !! c.
Proof.
  revert m0. induction l as [|k l IH]; intros m0; simpl.
  - done.
  - rewrite IH. destruct (decide (c = k)) as [->|Hne].
    + rewrite lookup_insert_eq. rewrite (bool_decide_eq_true_2 (k ∈ k :: l)) by left.
      by case_bool_decide.
    + rewrite lookup_insert_ne by done.
      destruct (bool_decide (c ∈ l)) eqn:E.
      * apply bool_decide_eq_true in E.
        rewrite bool_decide_eq_true_2; [done | by right].
      * apply bool_decide_eq_false in E.
        rewrite bool_decide_eq_false_2; [done|].
        intros [?|?]%elem_of_cons; done.
Qed.

Lemma lookup_char_table set v c :
  char_table set v !! c = if bool_decide (c ∈ set) then Some (Some v) else None.
Proof. unfold char_table. by rewrite lookup_foldl_insert, lookup_empty. Qed.

Lemma lookup_dict_fromkeys keys c :
  Py.dict_fromkeys keys !! c = if bool_decide (c ∈ keys) then Some None else None.
Proof. unfold Py.dict_fromkeys. by rewrite lookup_foldl_insert, lookup_empty. Qed.

Lemma maketrans_for_key_in set v :
  Py.maketrans (Py.dict_for_key_in set v) = Return (char_table set v).
Proof.
  unfold Py.maketrans, Py.dict_for_key_in, char_table.
  generalize (∅ : gmap Z (option text)).
  induction set as [|c set IH]; intros m0; simpl; [done|]. apply IH.
Qed.

Lemma translate_char_table set v s :
  Py.translate (char_table set v) s = replace_chars set v s.
Proof.
  unfold Py.translate, replace_chars.
  induction s as [|c s IH]; [done|].
  rewrite !bind_cons, IH, lookup_char_table. by destruct (bool_decide (c ∈ set)).
Qed.

Lemma chr_in_range c : 0 ≤ c < 1114112 → Py.chr c = Return c.
Proof. intros Hc. unfold Py.chr. by rewrite bool_decide_eq_true_2. Qed.

Lemma generate_if_chr (p : Z → bool) (l : list Z) :
  Forall (λ c, 0 ≤ c < 1114112) l →
  Py.generate_if (λ c, ch ← Py.chr c; Return (p ch)) l
  = Return (filter (λ c, p c) l).
Proof.
  induction 1 as [|c l Hc _ IH]; [done|].
  cbn [Py.generate_if]. rewrite chr_in_range by done.
  cbn [mbind exc_bind]. rewrite IH. cbn [mbind exc_bind].
  rewrite filter_cons. by destruct (p c).
Qed.

Lemma range_in_chr_domain n :
  n ≤ 1114112 → Forall (λ c, 0 ≤ c < 1114112) (Py.range n).
Proof.
  intros Hn. apply Forall_forall. intros c Hc.
  unfold Py.range in Hc. apply elem_of_seqZ in Hc. lia.
Qed.

Lemma translate_dict_fromkeys keys s :
  Py.translate (Py.dict_fromkeys keys) s = filter (λ c, c ∉ keys) s.
Proof.
  unfold Py.translate. induction s as [|c s IH]; [done|].
  rewrite bind_cons, IH, lookup_dict_fromkeys, filter_cons.
  destruct (decide (c ∈ keys)) as [Hin|Hin].
  - rewrite bool_decide_eq_true_2 by done. by rewrite decide_False by tauto.
  - rewrite bool_decide_eq_false_2 by done. by rewrite decide_True by done.
Qed.

Ltac step :=
  cbn [mbind exc_bind truth bind_arguments set_text set_punctuation when negb
       v_text v_lower v_normalize v_punctuation v_numbers v_unhyphenate
       v_remove_lines v_remove_spaces v_entities v_diacriticals v_fill
       lower normalize punctuation numbers unhyphenate remove_lines
       remove_spaces entities diacriticals fill].

Section Program_facts.

Context (L : PyLib).

Lemma deleted_range c :
  c ∈ filter (λ c, negb (unicodedata_combining L c =? 0))
        (Py.range Py.sys_maxunicode)
  ↔ deleted L c.
Proof.
  rewrite list_elem_of_filter. unfold Py.range, deleted.
  rewrite elem_of_seqZ, andb_True, bool_decide_spec. intuition lia.
Qed.

(** [remove_diacriticals] returns, and what it returns. *)
Lemma remove_diacriticals_returns s :
  remove_diacriticals L s = Return (diacritic_strip L s).
Proof.
  unfold remove_diacriticals.
  rewrite (generate_if_chr (λ c, negb (unicodedata_combining L c =? 0))).
  2:{ apply range_in_chr_domain. unfold Py.sys_maxunicode. lia. }
  cbn [mbind exc_bind]. f_equal.
  rewrite translate_dict_fromkeys. unfold diacritic_strip.
  apply list_filter_iff. intros c. by rewrite deleted_range.
Qed.

Lemma if_not_entities_returns l :
  if_not_entities L l
  = (d ← (if negb (v_entities l) then html_unescape L (v_text l)
          else Return (v_text l));
     Return (set_text l d)).
Proof. unfold if_not_entities. by destruct l as [? ? ? ? ? ? ? ? [] ? ?]. Qed.

Lemma if_unhyphenate_returns l :
  if_unhyphenate l
  = Return (set_text l (when (v_unhyphenate l) unhyphenate_lines (v_text l))).
Proof. unfold if_unhyphenate, when. by destruct l as [? ? ? ? ? [] ? ? ? ? ?]. Qed.

Lemma if_lower_returns l :
  if_lower L l = Return (set_text l (when (v_lower l) (lowercase L) (v_text l))).
Proof. unfold if_lower, when. by destruct l as [? [] ? ? ? ? ? ? ? ? ?]. Qed.

Lemma if_normalize_returns l :
  if_normalize L l
  = Return (set_text l (when (v_normalize l) (spelling_normalize L) (v_text l))).
Proof. unfold if_normalize, when. by destruct l as [? ? [] ? ? ? ? ? ? ? ?]. Qed.

Lemma if_not_punctuation_returns l :
  if_not_punctuation l
  = Return (if truth (v_punctuation l) then l
            else set_text (set_punctuation l (PyStr punctuation_chars))
                   (punctuation_strip (v_fill l) (v_text l))).
Proof.
  unfold if_not_punctuation.
  destruct (truth (v_punctuation l)); cbn [negb]; [done|].
  cbv zeta. cbn [v_punctuation set_punctuation mbind exc_bind].
  rewrite maketrans_for_key_in. cbn [mbind exc_bind].
  by rewrite translate_char_table.
Qed.

Lemma if_not_numbers_returns l :
  if_not_numbers l
  = Return (set_text l (when (negb (v_numbers l)) (number_strip (v_fill l)) (v_text l))).
Proof.
  unfold if_not_numbers, when. destruct (v_numbers l); cbn [negb].
  - by destruct l.
  - rewrite maketrans_for_key_in. cbn [mbind exc_bind].
    by rewrite translate_char_table.
Qed.

Lemma if_remove_lines_returns l :
  if_remove_lines l
  = Return (set_text l (when (v_remove_lines l) line_join (v_text l))).
Proof. unfold if_remove_lines, when. by destruct l as [? ? ? ? ? ? [] ? ? ? ?]. Qed.

Lemma if_remove_spaces_returns l :
  if_remove_spaces l
  = Return (set_text l (when (v_remove_spaces l) (space_join (v_fill l)) (v_text l))).
Proof. unfold if_remove_spaces, when. by destruct l as [? ? ? ? ? ? ? [] ? ? ?]. Qed.

Lemma if_not_diacriticals_returns l :
  if_not_diacriticals L l
  = Return (set_text l (when (negb (v_diacriticals l)) (diacritic_strip L) (v_text l))).
Proof.
  unfold if_not_diacriticals, when. rewrite remove_diacriticals_returns.
  by destruct l as [? ? ? ? ? ? ? ? ? [] ?].
Qed.

Lemma run_later_statements d o :
  run [if_unhyphenate; if_lower L; if_normalize L; if_not_punctuation;
       if_not_numbers; if_remove_lines; if_remove_spaces;
       if_not_diacriticals L; fix_spacing; recompose L]
    (bind_arguments d o)
  = Return (locals_at_return L o d).
Proof.
  destruct o as [lo no pu nu un rl rs en di fi].
  unfold locals_at_return, conditional_steps, first_steps.
  rewrite run_cons, if_unhyphenate_returns; step.
  rewrite run_cons, if_lower_returns; step.
  rewrite run_cons, if_normalize_returns; step.
  rewrite run_cons, if_not_punctuation_returns; step.
  destruct pu; step.
  all: rewrite run_cons, if_not_numbers_returns; step.
  all: rewrite run_cons, if_remove_lines_returns; step.
  all: rewrite run_cons, if_remove_spaces_returns; step.
  all: rewrite run_cons, if_not_diacriticals_returns; step.
  all: rewrite run_cons; unfold fix_spacing; step.
  all: rewrite run_cons; unfold recompose; step.
  all: rewrite run_nil; reflexivity.
Qed.

Lemma run_statements s o :
  run (statements L) (bind_arguments s o)
  = (d ← entity_decode L o s; Return (locals_at_return L o d)).
Proof.
  unfold statements. rewrite run_cons, if_not_entities_returns.
  unfold entity_decode. cbn [v_entities v_text bind_arguments].
  destruct (negb (entities o)).
  - destruct (html_unescape L s) as [d|e]; cbn [mbind exc_bind]; [|done].
    apply (run_later_statements d o).
  - cbn [mbind exc_bind]. apply (run_later_statements s o).
Qed.

(** What [preprocess] returns or raises. *)
Lemma preprocess_returns s o : preprocess L s o = normalize_spec L o s.
Proof.
  unfold preprocess, normalize_spec. rewrite run_statements.
  by destruct (entity_decode L o s).
Qed.

Lemma preprocess_decoded s o d :
  entity_decode L o s = Return d →
  preprocess L s o = Return (steps_after_decoding L o d).
Proof. intros H. rewrite preprocess_returns. unfold normalize_spec. by rewrite H. Qed.

Lemma entity_decode_skipped s o :
  entities o = true → entity_decode L o s = Return s.
Proof. intros H. unfold entity_decode. by rewrite H. Qed.

Lemma entity_decode_returns s o :
  (entities o = false → returns (html_unescape L s)) →
  returns (entity_decode L o s).
Proof.
  intros H. unfold entity_decode. destruct (entities o); cbn [negb].
  - by exists s.
  - by apply H.
Qed.

End Program_facts.

(** ** Regular expression substitution *)

Lemma re_sub_from_drop m repl k s :
  Py.re_sub_from m repl k s = Py.re_sub_from m repl 0 (drop k s).
Proof.
  revert k. induction s as [|c r IH]; intros [|k]; try done.
  simpl. apply IH.
Qed.

Lemma re_sub_cons m repl c r :
  Py.re_sub m repl (c :: r)
  = match m (c :: r) with
    | Some (S k) => repl ++ Py.re_sub m repl (drop k r)
    | _ => c :: Py.re_sub m repl r
    end.
Proof.
  unfold Py.re_sub. cbn [Py.re_sub_from].
  destruct (m (c :: r)) as [[|k]|]; try done.
  by rewrite re_sub_from_drop.
Qed.

Lemma re_sub_from_Forall (P : Z → Prop) m repl k s :
  (∀ c r n, m (c :: r) = Some (S n) → P c → Forall P repl) →
  Forall P s → Forall P (Py.re_sub_from m repl k s).
Proof.
  intros Hm Hs. revert k.
  induction Hs as [|c r Hc Hr IH]; intros k; [done|].
  cbn [Py.re_sub_from]. destruct k as [|k]; [|apply IH].
  destruct (m (c :: r)) as [[|n]|] eqn:E.
  - constructor; [done | apply IH].
  - apply Forall_app. split; [by eapply Hm | apply IH].
  - constructor; [done | apply IH].
Qed.

Lemma re_sub_no_match (P : Z → Prop) m repl s :
  (∀ c r, P c → m (c :: r) = None) →
  Forall P s → Py.re_sub m repl s = s.
Proof.
  intros Hm. induction 1 as [|c r Hc Hr IH]; [done|].
  rewrite re_sub_cons, (Hm c r Hc). by rewrite IH.
Qed.

(** ** Runs of spaces *)

Lemma spaces_run_cons c r n :
  spaces_run (c :: r) = Some (S n) → c = 32 ∧ n = leading_spaces r.
Proof.
  unfold spaces_run. cbn [leading_spaces].
  case_bool_decide; [|done]. intros [= <-]. done.
Qed.

Lemma spaces_run_space r :
  spaces_run (32 :: r) = Some (S (leading_spaces r)).
Proof. done. Qed.

Lemma spaces_run_other c r : c ≠ 32 → spaces_run (c :: r) = None.
Proof.
  intros Hc. unfold spaces_run. cbn [leading_spaces].
  by rewrite bool_decide_eq_false_2.
Qed.

Lemma head_drop_leading_spaces r :
  head (drop (leading_spaces r) r) ≠ Some 32.
Proof.
  induction r as [|c r IH]; [done|].
  cbn [leading_spaces]. case_bool_decide as Hc; [done|].
  simpl. congruence.
Qed.

Lemma length_drop_le {A} (n : nat) (l : list A) : (length (drop n l) ≤ length l)%nat.
Proof. rewrite length_drop. lia. Qed.

(** The substitution [re.sub(" +", " ", s)] keeps the first character. *)
Lemma head_whitespace_collapse s : head (whitespace_collapse s) = head s.
Proof.
  destruct s as [|c r]; [done|].
  unfold whitespace_collapse. rewrite re_sub_cons.
  destruct (spaces_run (c :: r)) as [[|n]|] eqn:E; try done.
  by apply spaces_run_cons in E as [-> _].
Qed.

Lemma whitespace_collapse_no_double_space s :
  has_double_space (whitespace_collapse s) = false.
Proof.
  remember (length s) as n eqn:Hn. revert s Hn.
  induction n as [n IH] using lt_wf_ind. intros [|c r] Hn; [done|].
  simpl in Hn. unfold whitespace_collapse. rewrite re_sub_cons.
  destruct (decide (c = 32)) as [->|Hc].
  - rewrite spaces_run_space. cbn [app has_double_space].
    fold (whitespace_collapse (drop (leading_spaces r) r)).
    rewrite head_whitespace_collapse.
    rewrite (bool_decide_eq_false_2 (head _ = Some 32))
      by apply head_drop_leading_spaces.
    rewrite andb_false_r. cbn [orb].
    eapply IH; [|done]. pose proof (length_drop_le (leading_spaces r) r). lia.
  - rewrite spaces_run_other by done. cbn [has_double_space].
    rewrite (bool_decide_eq_false_2 (c = 32)) by done. cbn [andb orb].
    eapply (IH (length r)); [lia | done].
Qed.

Lemma whitespace_collapse_id s :
  has_double_space s = false → whitespace_collapse s = s.
Proof.
  induction s as [|c r IH]; [done|]. cbn [has_double_space].
  intros [H1 H2]%orb_false_elim. unfold whitespace_collapse.
  rewrite re_sub_cons. destruct (decide (c = 32)) as [->|Hc].
  - rewrite spaces_run_space.
    rewrite bool_decide_eq_true_2 in H1 by done. cbn [andb] in H1.
    apply bool_decide_eq_false in H1.
    assert (leading_spaces r = 0%nat) as ->.
    { destruct r as [|d r]; [done|]. cbn [leading_spaces].
      case_bool_decide; [|done]. subst. done. }
    rewrite drop_0. cbn [app]. f_equal. by apply IH.
  - rewrite spaces_run_other by done. f_equal. by apply IH.
Qed.

Lemma whitespace_collapse_Forall (P : Z → Prop) s :
  Forall P s → Forall P (whitespace_collapse s).
Proof.
  apply re_sub_from_Forall. intros c r n [-> _]%spaces_run_cons Hc.
  by constructor.
Qed.

(** ** Stripping *)

Lemma lstrip_Forall (P : Z → Prop) s : Forall P s → Forall P (Py.lstrip s).
Proof.
  induction 1 as [|c r Hc Hr IH]; [done|].
  cbn [Py.lstrip]. destruct (Py.isspace c); [done | by constructor].
Qed.

Lemma rstrip_Forall (P : Z → Prop) s : Forall P s → Forall P (Py.rstrip s).
Proof.
  induction 1 as [|c r Hc Hr IH]; [done|].
  cbn [Py.rstrip]. destruct (Py.rstrip r) as [|d r'].
  - destruct (Py.isspace c); [done | by constructor].
  - by constructor.
Qed.

Lemma strip_Forall (P : Z → Prop) s : Forall P s → Forall P (Py.strip s).
Proof. intros. by apply rstrip_Forall, lstrip_Forall. Qed.

Lemma lstrip_starts s : starts_with_space (Py.lstrip s) = false.
Proof.
  induction s as [|c r IH]; [done|].
  cbn [Py.lstrip]. destruct (Py.isspace c) eqn:E; [done|].
  unfold starts_with_space. by rewrite <- E.
Qed.

Lemma lstrip_id s : starts_with_space s = false → Py.lstrip s = s.
Proof.
  destruct s as [|c r]; [done|]. unfold starts_with_space. simpl.
  by intros ->.
Qed.

Lemma lstrip_blank s : blank s → Py.lstrip s = [].
Proof.
  induction 1 as [|c r Hc Hr IH]; [done|].
  cbn [Py.lstrip]. by rewrite (Is_true_eq_true _ Hc).
Qed.

Lemma rstrip_cons c r :
  Py.rstrip (c :: r)
  = if bool_decide (Py.rstrip r = []) then (if Py.isspace c then [] else [c])
    else c :: Py.rstrip r.
Proof.
  cbn [Py.rstrip]. destruct (Py.rstrip r); [done|].
  by rewrite bool_decide_eq_false_2.
Qed.

Lemma rstrip_ends s : ends_with_space (Py.rstrip s) = false.
Proof.
  induction s as [|c r IH]; [done|].
  rewrite rstrip_cons. case_bool_decide as Hr.
  - destruct (Py.isspace c) eqn:E; [done|].
    unfold ends_with_space. by rewrite <- E.
  - destruct (Py.rstrip r) as [|d r']; [done|]. exact IH.
Qed.

Lemma rstrip_id s : ends_with_space s = false → Py.rstrip s = s.
Proof.
  induction s as [|c r IH]; [done|]. intros Hs.
  rewrite rstrip_cons. destruct r as [|d r].
  - unfold ends_with_space in Hs. simpl in Hs. by rewrite Hs.
  - rewrite IH by exact Hs. by rewrite bool_decide_eq_false_2.
Qed.

Lemma rstrip_starts s :
  starts_with_space s = false → starts_with_space (Py.rstrip s) = false.
Proof.
  destruct s as [|c r]; [done|]. intros Hs.
  rewrite rstrip_cons. case_bool_decide; [|done].
  unfold starts_with_space in Hs. simpl in Hs. by rewrite Hs.
Qed.

Lemma head_rstrip s : Py.rstrip s ≠ [] → head (Py.rstrip s) = head s.
Proof.
  destruct s as [|c r]; [done|]. rewrite rstrip_cons.
  case_bool_decide; [|done]. by destruct (Py.isspace c).
Qed.

Lemma strip_starts s : starts_with_space (Py.strip s) = false.
Proof. apply rstrip_starts, lstrip_starts. Qed.

Lemma strip_ends s : ends_with_space (Py.strip s) = false.
Proof. apply rstrip_ends. Qed.

Lemma strip_id s :
  starts_with_space s = false → ends_with_space s = false → Py.strip s = s.
Proof. intros H1 H2. unfold Py.strip. by rewrite lstrip_id, rstrip_id. Qed.

Lemma strip_blank s : blank s → Py.strip s = [].
Proof. intros Hs. unfold Py.strip. by rewrite lstrip_blank. Qed.

Lemma lstrip_no_double_space s :
  has_double_space s = false → has_double_space (Py.lstrip s) = false.
Proof.
  induction s as [|c r IH]; [done|]. cbn [has_double_space Py.lstrip].
  intros [H1 H2]%orb_false_elim. destruct (Py.isspace c); [by apply IH|].
  cbn [has_double_space]. by rewrite H1, H2.
Qed.

Lemma rstrip_no_double_space s :
  has_double_space s = false → has_double_space (Py.rstrip s) = false.
Proof.
  induction s as [|c r IH]; [done|]. cbn [has_double_space].
  intros [H1 H2]%orb_false_elim. rewrite rstrip_cons.
  destruct (bool_decide (Py.rstrip r = [])) eqn:Hr.
  - destruct (Py.isspace c); [done|]. cbn [has_double_space head].
    rewrite (bool_decide_eq_false_2 (None = Some 32)) by done.
    by rewrite andb_false_r.
  - apply bool_decide_eq_false in Hr.
    cbn [has_double_space]. rewrite head_rstrip by done.
    rewrite H1. by apply IH.
Qed.

Lemma strip_no_double_space s :
  has_double_space s = false → has_double_space (Py.strip s) = false.
Proof. intros. by apply rstrip_no_double_space, lstrip_no_double_space. Qed.

(** ** Splitting and joining *)

Lemma split_from_nonempty sep k s : Py.split_from sep k s ≠ [].
Proof.
  revert k. induction s as [|c r IH]; intros k; [done|].
  cbn [Py.split_from]. destruct k as [|k]; [|apply IH].
  destruct (Py.startswith sep (c :: r)); [done|].
  by destruct (Py.split_from sep 0 r).
Qed.

Lemma join_cons_cons sep c w ws :
  Py.join sep ((c :: w) :: ws) = c :: Py.join sep (w :: ws).
Proof. by destruct ws. Qed.

Lemma join_cons sep w ws :
  ws ≠ [] → Py.join sep (w :: ws) = w ++ sep ++ Py.join sep ws.
Proof. by destruct ws. Qed.

Lemma join_Forall (P : Z → Prop) sep ws :
  Forall P sep → Forall (Forall P) ws → Forall P (Py.join sep ws).
Proof.
  intros Hsep. induction 1 as [|w ws Hw Hws IH]; [done|].
  destruct ws as [|w' ws]; [done|]. rewrite join_cons by done.
  by rewrite !Forall_app.
Qed.

(** Splitting on the newline and joining with one space replaces each
    newline by a space. *)
Lemma line_join_fmap s : line_join s = newline_to_space <$> s.
Proof.
  unfold line_join. induction s as [|c r IH]; [done|].
  cbn [Py.split_from Py.startswith length Nat.sub fmap list_fmap].
  rewrite andb_true_r. unfold newline_to_space at 1.
  destruct (bool_decide (c = 10)).
  - rewrite join_cons by apply split_from_nonempty. by rewrite IH.
  - pose proof (split_from_nonempty [10] 0 r) as Hne.
    destruct (Py.split_from [10] 0 r) as [|w ws]; [done|].
    rewrite join_cons_cons. by rewrite IH.
Qed.

Lemma split_ws_cons c r :
  Py.split_ws (c :: r)
  = if Py.isspace c then Py.split_ws r
    else if bool_decide (r = []) || starts_with_space r
         then [c] :: Py.split_ws r
         else match Py.split_ws r with
              | w :: ws => (c :: w) :: ws
              | [] => [[c]]
              end.
Proof.
  cbn [Py.split_ws]. destruct (Py.isspace c); [done|].
  destruct r as [|d r]; [done|].
  rewrite (bool_decide_eq_false_2 (d :: r = [])) by done.
  unfold starts_with_space. cbn [orb head]. done.
Qed.

Lemma split_ws_blank s : blank s → Py.split_ws s = [].
Proof.
  induction 1 as [|c r Hc Hr IH]; [done|].
  rewrite split_ws_cons. by rewrite (Is_true_eq_true _ Hc).
Qed.

Lemma split_ws_Forall (P : Z → Prop) s :
  Forall P s → Forall (Forall P) (Py.split_ws s).
Proof.
  induction 1 as [|c r Hc Hr IH]; [done|].
  rewrite split_ws_cons. destruct (Py.isspace c); [done|].
  destruct (bool_decide (r = []) || starts_with_space r).
  - constructor; [by constructor | done].
  - destruct (Py.split_ws r) as [|w ws]; [by repeat constructor|].
    apply Forall_cons in IH as [Hw Hws].
    constructor; [by constructor | done].
Qed.

Lemma split_ws_words s : Forall word (Py.split_ws s).
Proof.
  induction s as [|c r IH]; [done|].
  rewrite split_ws_cons. destruct (Py.isspace c) eqn:Hc; [done|].
  destruct (bool_decide (r = []) || starts_with_space r).
  - constructor; [|done]. split; [done | by constructor].
  - destruct (Py.split_ws r) as [|w ws].
    + constructor; [|done]. split; [done | by constructor].
    + apply Forall_cons in IH as [[Hw1 Hw2] Hws].
      constructor; [|done]. split; [done | by constructor].
Qed.

(** ** Replacing characters *)

Lemma replace_chars_Forall (P : Z → Prop) set by_ s :
  Forall P by_ → Forall P s → Forall P (replace_chars set by_ s).
Proof.
  intros Hby. unfold replace_chars. induction 1 as [|c r Hc Hr IH]; [done|].
  rewrite bind_cons. apply Forall_app. split; [|done].
  destruct (bool_decide (c ∈ set)); [done | by constructor].
Qed.

(** Afterwards no character of [set] is left, unless [by_] brings one. *)
Lemma replace_chars_removes set by_ s :
  Forall (λ c, c ∉ set) by_ → Forall (λ c, c ∉ set) (replace_chars set by_ s).
Proof.
  intros Hby. unfold replace_chars. induction s as [|c r IH]; [done|].
  rewrite bind_cons. apply Forall_app. split; [|done].
  case_bool_decide; [done | by constructor].
Qed.

Lemma replace_chars_id set by_ s :
  Forall (λ c, c ∉ set) s → replace_chars set by_ s = s.
Proof.
  unfold replace_chars. induction 1 as [|c r Hc Hr IH]; [done|].
  rewrite bind_cons, IH. by rewrite bool_decide_eq_false_2.
Qed.

Lemma when_Forall (P : Z → Prop) b f s :
  (Forall P s → Forall P (f s)) → Forall P s → Forall P (when b f s).
Proof. unfold when. destruct b; auto. Qed.

Lemma filter_Forall (P : Z → Prop) (Q : Z → Prop) `{∀ c, Decision (Q c)} s :
  Forall P s → Forall P (filter Q s).
Proof.
  rewrite !Forall_forall. intros Hs c [_ Hc]%list_elem_of_filter. by apply Hs.
Qed.

Lemma filter_id (Q : Z → Prop) `{∀ c, Decision (Q c)} s :
  Forall Q s → filter Q s = s.
Proof.
  induction 1 as [|c r Hc Hr IH]; [done|].
  by rewrite filter_cons, decide_True, IH.
Qed.

(** ** Digits *)

Lemma elem_of_digit_chars c : c ∈ digit_chars ↔ is_digit c = true.
Proof.
  unfold is_digit. rewrite bool_decide_eq_true.
  change digit_chars with [48; 49; 50; 51; 52; 53; 54; 55; 56; 57].
  rewrite !elem_of_cons, elem_of_nil. lia.
Qed.

Lemma number_strip_by_digit by_ s :
  number_strip by_ s = s ≫= λ c, if is_digit c then by_ else [c].
Proof.
  unfold number_strip, replace_chars. induction s as [|c r IH]; [done|].
  rewrite !bind_cons, IH. f_equal.
  destruct (is_digit c) eqn:E.
  - by rewrite bool_decide_eq_true_2 by by apply elem_of_digit_chars.
  - rewrite bool_decide_eq_false_2; [done|].
    rewrite elem_of_digit_chars. congruence.
Qed.

Lemma number_strip_digit_free by_ s :
  digit_free by_ → digit_free (number_strip by_ s).
Proof.
  intros Hby. unfold digit_free, number_strip.
  eapply Forall_impl.
  - apply replace_chars_removes. eapply Forall_impl; [exact Hby|].
    intros c Hc. rewrite elem_of_digit_chars. congruence.
  - intros c Hc. simpl in Hc. rewrite elem_of_digit_chars in Hc.
    by destruct (is_digit c).
Qed.

Lemma line_join_Forall (P : Z → Prop) s :
  P 32 → Forall P s → Forall P (line_join s).
Proof.
  intros H32 Hs. rewrite line_join_fmap, Forall_fmap.
  eapply Forall_impl; [exact Hs|]. intros c Hc. unfold newline_to_space.
  simpl. by case_bool_decide.
Qed.

Lemma space_join_Forall (P : Z → Prop) by_ s :
  Forall P by_ → Forall P s → Forall P (space_join by_ s).
Proof. intros. by apply join_Forall, split_ws_Forall. Qed.

(** ** Blank strings *)

Lemma isspace_not_stripped c :
  Py.isspace c → c ∉ misc_chars ++ punctuation_chars.
Proof.
  intros Hc Hin. revert Hc. apply Is_true_false.
  revert c Hin. apply Forall_forall. by repeat constructor.
Qed.

Lemma isspace_not_digit c : Py.isspace c → c ∉ digit_chars.
Proof.
  intros Hc Hin. revert Hc. apply Is_true_false.
  revert c Hin. apply Forall_forall. by repeat constructor.
Qed.

Lemma replace_chars_blank set by_ s :
  (∀ c, Py.isspace c → c ∉ set) → blank s → replace_chars set by_ s = s.
Proof.
  intros Hset Hs. apply replace_chars_id.
  eapply Forall_impl; [exact Hs|]. exact Hset.
Qed.

Lemma unhyphenate_lines_Forall (P : Z → Prop) s :
  Forall P s → Forall P (unhyphenate_lines s).
Proof. apply re_sub_from_Forall. by intros. Qed.

Section Blank.

Context (L : PyLib).
Hypothesis lower_blank : keeps_blank (str_lower L).
Hypothesis replace_blank : keeps_blank (JVReplacer_replace L).
Hypothesis normalize_blank : ∀ f, keeps_blank (unicodedata_normalize L f).

Lemma conditional_steps_blank o s : blank s → blank (conditional_steps L o s).
Proof.
  intros Hs. unfold conditional_steps, first_steps.
  apply when_Forall.
  { intros H. apply filter_Forall. by apply normalize_blank. }
  apply when_Forall.
  { intros H. unfold space_join. by rewrite split_ws_blank. }
  apply when_Forall; [by apply line_join_Forall|].
  apply when_Forall.
  { intros H. unfold number_strip.
    by rewrite replace_chars_blank by (exact isspace_not_digit || done). }
  apply when_Forall.
  { intros H. unfold punctuation_strip.
    by rewrite replace_chars_blank by (exact isspace_not_stripped || done). }
  apply when_Forall; [apply replace_blank|].
  apply when_Forall; [apply lower_blank|].
  apply when_Forall; [apply unhyphenate_lines_Forall|]. done.
Qed.

End Blank.

(** ** The reference library *)

Lemma amp_reference_other c r : c ≠ 38 → Ref.amp_reference (c :: r) = None.
Proof.
  intros Hc. unfold Ref.amp_reference.
  change (Py.str "&amp;") with [38; 97; 109; 112; 59].
  cbn [Py.startswith]. by rewrite bool_decide_eq_false_2.
Qed.

Lemma exceeds_limit_no_amp s :
  Forall (λ c, c ≠ 38) s → Ref.exceeds_limit s = false.
Proof.
  induction 1 as [|c r Hc Hr IH]; [done|]. cbn [Ref.exceeds_limit].
  by rewrite (bool_decide_eq_false_2 (c = 38)).
Qed.

Lemma ref_unescape_no_amp s :
  Forall (λ c, c ≠ 38) s → Ref.unescape s = Return s.
Proof.
  intros Hs. unfold Ref.unescape. rewrite exceeds_limit_no_amp by done.
  f_equal. revert Hs. apply re_sub_no_match. intros c r.
  apply amp_reference_other.
Qed.

Lemma fmap_blank (f : Z → Z) :
  (∀ c, Py.isspace c → f c = c) → keeps_blank (fmap f).
Proof.
  intros Hf s Hs. unfold blank. rewrite Forall_fmap.
  eapply Forall_impl; [exact Hs|]. intros c Hc. simpl. by rewrite Hf.
Qed.

Lemma isspace_cases c :
  Py.isspace c →
  9 ≤ c ≤ 13 ∨ 28 ≤ c ≤ 32 ∨ c = 0x85 ∨ c = 0xA0 ∨ c = 0x1680
  ∨ 0x2000 ≤ c ≤ 0x200A ∨ c = 0x2028 ∨ c = 0x2029
  ∨ c = 0x202F ∨ c = 0x205F ∨ c = 0x3000.
Proof. unfold Py.isspace. apply bool_decide_unpack. Qed.

Lemma ref_unescape_blank : decodes_blank RefLib.
Proof.
  intros s Hs. exists s. split; [|done]. simpl. apply ref_unescape_no_amp.
  eapply Forall_impl; [exact Hs|]. intros c Hc%isspace_cases. simpl in Hc. lia.
Qed.

Lemma ref_lower_blank : keeps_blank (str_lower RefLib).
Proof.
  apply fmap_blank. intros c Hc%isspace_cases. unfold Ref.lower_char.
  case_bool_decide; [lia | done].
Qed.

Lemma ref_replace_blank : keeps_blank (JVReplacer_replace RefLib).
Proof.
  apply fmap_blank. intros c Hc%isspace_cases. unfold Ref.jv_char.
  repeat case_bool_decide; try done; lia.
Qed.

Lemma ref_normalize_blank f : keeps_blank (unicodedata_normalize RefLib f).
Proof.
  apply fmap_blank. intros c Hc%isspace_cases. unfold Ref.singleton.
  repeat case_bool_decide; try done; lia.
Qed.

Lemma ref_normalize_digit_free f s :
  digit_free s → digit_free (unicodedata_normalize RefLib f s).
Proof.
  intros Hs. unfold digit_free. simpl. rewrite Forall_fmap.
  eapply Forall_impl; [exact Hs|]. intros c. unfold Ref.singleton. simpl.
  repeat case_bool_decide; done.
Qed.

Lemma has_double_space_fmap (f : Z → Z) s :
  (∀ c, f c = 32 ↔ c = 32) →
  has_double_space (f <$> s) = has_double_space s.
Proof.
  intros Hf. induction s as [|c r IH]; [done|].
  cbn [fmap list_fmap has_double_space]. fold (fmap f r). rewrite IH.
  f_equal. f_equal.
  - apply bool_decide_ext, Hf.
  - apply bool_decide_ext. destruct r as [|d r]; simpl; [done|].
    split; intros [= H]; f_equal; by apply Hf.
Qed.

Lemma ref_normalize_spacing f s :
  has_double_space (unicodedata_normalize RefLib f s) = has_double_space s.
Proof.
  apply has_double_space_fmap. intros c. unfold Ref.singleton.
  repeat case_bool_decide; lia.
Qed.

(** ** Joined words *)

Lemma isspace_32 : Py.isspace 32 = true.
Proof. done. Qed.

Lemma split_ws_space x : Py.split_ws (32 :: x) = Py.split_ws x.
Proof. by rewrite split_ws_cons, isspace_32. Qed.

Lemma split_ws_word_space c w x :
  Py.isspace c = false → Forall (λ c, Py.isspace c = false) w →
  Py.split_ws (c :: w ++ 32 :: x) = (c :: w) :: Py.split_ws x.
Proof.
  intros Hc Hw. revert c Hc.
  induction Hw as [|d w Hd Hw IH]; intros c Hc.
  - rewrite split_ws_cons, Hc. cbn [app].
    rewrite (bool_decide_eq_false_2 (32 :: x = [])) by done.
    unfold starts_with_space. cbn [head orb]. rewrite isspace_32.
    by rewrite split_ws_space.
  - rewrite split_ws_cons, Hc. cbn [app].
    rewrite (bool_decide_eq_false_2 (d :: _ = [])) by done.
    unfold starts_with_space. cbn [head orb]. rewrite Hd.
    change (d :: w ++ 32 :: x) with (d :: (w ++ 32 :: x)).
    by rewrite IH.
Qed.

Lemma split_ws_word_end c w :
  Py.isspace c = false → Forall (λ c, Py.isspace c = false) w →
  Py.split_ws (c :: w) = [c :: w].
Proof.
  intros Hc Hw. revert c Hc.
  induction Hw as [|d w Hd Hw IH]; intros c Hc.
  - by rewrite split_ws_cons, Hc.
  - rewrite split_ws_cons, Hc.
    rewrite (bool_decide_eq_false_2 (d :: _ = [])) by done.
    unfold starts_with_space. cbn [head orb]. rewrite Hd.
    by rewrite IH.
Qed.

(** Splitting what [" ".join] made of words gives the words back. *)
Lemma split_ws_join ws :
  Forall word ws → Py.split_ws (Py.join [32] ws) = ws.
Proof.
  induction 1 as [|w ws [Hne Hw] Hws IH]; [done|].
  destruct w as [|c w]; [done|]. apply Forall_cons in Hw as [Hc Hw].
  destruct ws as [|w' ws].
  - by apply split_ws_word_end.
  - rewrite join_cons by done. cbn [app].
    rewrite split_ws_word_space by done. by rewrite IH.
Qed.








(** ** Idempotence on ASCII text *)

Lemma settled_ascii o n s : Forall (settled o n) s → ascii s.
Proof. intros Hs. eapply Forall_impl; [exact Hs|]. by intros c [? _]. Qed.

Lemma settled_space o n : settled o n 32.
Proof.
  unfold settled. repeat split; try done.
  - intros _ _. by apply isspace_not_stripped.
  - intros _ _. by apply isspace_not_digit.
Qed.

Lemma replace_chars_Forall2 (P Q : Z → Prop) set by_ s :
  (∀ c, P c → c ∉ set → Q c) → Forall Q by_ → Forall P s →
  Forall Q (replace_chars set by_ s).
Proof.
  intros HPQ Hby. unfold replace_chars. induction 1 as [|c r Hc Hr IH]; [done|].
  rewrite bind_cons. apply Forall_app. split; [|done].
  case_bool_decide; [done|]. constructor; [by apply HPQ | done].
Qed.

Lemma hyphen_break_other c r : is_hyphen c = false → hyphen_break (c :: r) = None.
Proof. intros Hc. unfold hyphen_break. destruct r; [done|]. by rewrite Hc. Qed.

Lemma unhyphenate_lines_id s :
  Forall (λ c, is_hyphen c = false) s → unhyphenate_lines s = s.
Proof. apply re_sub_no_match. intros c r. apply hyphen_break_other. Qed.

Lemma not_stripped_not_hyphen c :
  c ∉ misc_chars ++ punctuation_chars → is_hyphen c = false.
Proof.
  intros Hc. unfold is_hyphen. apply bool_decide_eq_false.
  intros Hh. apply Hc.
  destruct Hh as [-> | [-> | ->]]; apply (bool_decide_unpack _); by vm_compute.
Qed.

Lemma fmap_fixed (f : Z → Z) s : Forall (λ c, f c = c) s → f <$> s = s.
Proof.
  intros Hs. rewrite <- (list_fmap_id s) at 2. by apply Forall_fmap_ext_1.
Qed.

Lemma when_id b f s : (b = true → f s = s) → when b f s = s.
Proof. unfold when. destruct b; auto. Qed.

Lemma when_Forall2 (P Q : Z → Prop) b f s :
  (b = true → Forall P s → Forall Q (f s)) →
  (b = false → ∀ c, P c → Q c) →
  Forall P s → Forall Q (when b f s).
Proof.
  unfold when. destruct b; intros H1 H2 Hs; [by apply H1|].
  eapply Forall_impl; [exact Hs|]. by apply H2.
Qed.

Ltac settle :=
  unfold settled in *;
  repeat match goal with
         | H : _ ∧ _ |- _ => destruct H
         | H : (_ ≤ _)%nat → _ |- _ =>
             first [specialize (H ltac:(lia)) | clear H]
         end;
  repeat split; intros;
  repeat match goal with
         | H : ?a = ?b → _, E : ?a = ?b |- _ => specialize (H E)
         end;
  unfold Ref.lower_char, Ref.jv_char, newline_to_space in *;
  repeat case_bool_decide;
  first [done | lia | congruence].

Lemma settled_lower o c : settled o 0 c → settled o 3 (Ref.lower_char c).
Proof. intros Hc. settle. Qed.

Lemma settled_lower_skip o c : lower o = false → settled o 0 c → settled o 3 c.
Proof. intros Hb Hc. settle. Qed.

Lemma settled_replace o c : settled o 3 c → settled o 4 (Ref.jv_char c).
Proof. intros Hc. settle. Qed.

Lemma settled_replace_skip o c :
  normalize o = false → settled o 3 c → settled o 4 c.
Proof. intros Hb Hc. settle. Qed.

Lemma settled_punctuation o c :
  settled o 4 c → c ∉ misc_chars ++ punctuation_chars → settled o 5 c.
Proof. intros Hc Hn. settle. Qed.

Lemma settled_punctuation_skip o c :
  punctuation o = true → settled o 4 c → settled o 5 c.
Proof. intros Hb Hc. settle. Qed.

Lemma settled_numbers o c : settled o 5 c → c ∉ digit_chars → settled o 6 c.
Proof. intros Hc Hn. settle. Qed.

Lemma settled_numbers_skip o c :
  numbers o = true → settled o 5 c → settled o 6 c.
Proof. intros Hb Hc. settle. Qed.

Lemma settled_lines o c : settled o 6 c → settled o 7 (newline_to_space c).
Proof.
  intros Hc. unfold newline_to_space. case_bool_decide as Hn.
  - apply settled_space.
  - settle.
Qed.

Lemma settled_lines_skip o c :
  remove_lines o = false → settled o 6 c → settled o 7 c.
Proof. intros Hb Hc. settle. Qed.

Lemma settled_start o s :
  ascii s → (entities o = false → Forall (λ c, c ≠ 38) s) →
  Forall (settled o 0) s.
Proof.
  intros Hs Hamp. apply Forall_forall. intros c Hc.
  pose proof (proj1 (Forall_forall _ _) Hs c Hc) as Ha. simpl in Ha.
  assert (entities o = false → c ≠ 38) as Hc38.
  { intros He. by apply (proj1 (Forall_forall _ _) (Hamp He) c Hc). }
  clear -Ha Hc38. settle.
Qed.

Section Idempotence.

Context (L : PyLib) (o : Options).
Hypothesis HL : ascii_library L.
Hypothesis Hfill : fill o = [32].
Hypothesis Hhyph : unhyphenate o = true → punctuation o = false.

Lemma diacritic_strip_ascii s : ascii s → diacritic_strip L s = s.
Proof.
  intros Hs. unfold diacritic_strip.
  rewrite (normalize_ascii L HL) by done. apply filter_id.
  eapply Forall_impl; [exact Hs|]. intros c Hc. simpl.
  unfold deleted. rewrite (combining_ascii L HL) by done.
  cbn [Z.eqb negb]. rewrite andb_false_r. simpl. tauto.
Qed.

Lemma entity_decode_settled s :
  Forall (settled o 0) s → entity_decode L o s = Return s.
Proof.
  intros Hs. unfold entity_decode. destruct (entities o) eqn:He; [done|].
  cbn [negb]. apply (unescape_no_amp L HL).
  eapply Forall_impl; [exact Hs|]. intros c Hc. by apply Hc.
Qed.

Lemma first_steps_settled s :
  Forall (settled o 0) s → Forall (settled o 7) (first_steps L o s).
Proof.
  intros Hs. unfold first_steps.
  assert (Forall (settled o 0) (when (unhyphenate o) unhyphenate_lines s)) as H2
    by (by apply when_Forall; [apply unhyphenate_lines_Forall|]).
  revert H2. generalize (when (unhyphenate o) unhyphenate_lines s).
  clear s Hs. intros s Hs.
  assert (Forall (settled o 3) (when (lower o) (lowercase L) s)) as H3.
  { eapply when_Forall2; [| |exact Hs].
    - intros Hb H. unfold lowercase.
      rewrite (lower_ascii L HL) by by eapply settled_ascii.
      rewrite Forall_fmap. eapply Forall_impl; [exact H|].
      intros c Hc. by apply settled_lower.
    - intros Hb c Hc. by apply settled_lower_skip. }
  revert H3. generalize (when (lower o) (lowercase L) s).
  clear s Hs. intros s Hs.
  assert (Forall (settled o 4) (when (normalize o) (spelling_normalize L) s)) as H4.
  { eapply when_Forall2; [| |exact Hs].
    - intros Hb H. unfold spelling_normalize.
      rewrite (replace_ascii L HL) by by eapply settled_ascii.
      rewrite Forall_fmap. eapply Forall_impl; [exact H|].
      intros c Hc. by apply settled_replace.
    - intros Hb c Hc. by apply settled_replace_skip. }
  revert H4. generalize (when (normalize o) (spelling_normalize L) s).
  clear s Hs. intros s Hs. rewrite Hfill.
  assert (Forall (settled o 5)
            (when (negb (punctuation o)) (punctuation_strip [32]) s)) as H5.
  { eapply when_Forall2; [| |exact Hs].
    - intros Hb H. unfold punctuation_strip.
      eapply replace_chars_Forall2; [| |exact H].
      + apply settled_punctuation.
      + constructor; [apply settled_space | constructor].
    - intros Hb%negb_false_iff c Hc. by apply settled_punctuation_skip. }
  revert H5. generalize (when (negb (punctuation o)) (punctuation_strip [32]) s).
  clear s Hs. intros s Hs.
  assert (Forall (settled o 6)
            (when (negb (numbers o)) (number_strip [32]) s)) as H6.
  { eapply when_Forall2; [| |exact Hs].
    - intros Hb H. unfold number_strip.
      eapply replace_chars_Forall2; [| |exact H].
      + apply settled_numbers.
      + constructor; [apply settled_space | constructor].
    - intros Hb%negb_false_iff c Hc. by apply settled_numbers_skip. }
  revert H6. generalize (when (negb (numbers o)) (number_strip [32]) s).
  clear s Hs. intros s Hs.
  eapply when_Forall2; [| |exact Hs].
  - intros Hb H. rewrite line_join_fmap, Forall_fmap.
    eapply Forall_impl; [exact H|]. intros c Hc. by apply settled_lines.
  - intros Hb c Hc. by apply settled_lines_skip.
Qed.

Lemma space_joined_settled s :
  Forall (settled o 7) s →
  Forall (settled o 7) (when (remove_spaces o) (space_join [32]) s).
Proof.
  intros Hs. apply when_Forall; [|done]. intros H.
  apply space_join_Forall; [|done].
  constructor; [apply settled_space | constructor].
Qed.

Lemma conditional_steps_ascii s :
  Forall (settled o 0) s →
  conditional_steps L o s
  = when (remove_spaces o) (space_join [32]) (first_steps L o s).
Proof.
  intros Hs. unfold conditional_steps. rewrite Hfill.
  apply when_id. intros _. apply diacritic_strip_ascii.
  eapply settled_ascii. by apply space_joined_settled, first_steps_settled.
Qed.

Lemma conditional_steps_settled s :
  Forall (settled o 0) s → Forall (settled o 7) (conditional_steps L o s).
Proof.
  intros Hs. rewrite conditional_steps_ascii by done.
  by apply space_joined_settled, first_steps_settled.
Qed.

(** The result on ASCII text, free of the library. *)
Lemma steps_ascii s :
  Forall (settled o 0) s →
  steps_after_decoding L o s
  = Py.strip (whitespace_collapse
                (when (remove_spaces o) (space_join [32]) (first_steps L o s))).
Proof.
  intros Hs. unfold steps_after_decoding, trim, unicode_recompose.
  rewrite (normalize_ascii L HL).
  - by rewrite conditional_steps_ascii.
  - eapply settled_ascii, whitespace_collapse_Forall.
    by apply conditional_steps_settled.
Qed.

Lemma steps_settled s :
  Forall (settled o 0) s → Forall (settled o 7) (steps_after_decoding L o s).
Proof.
  intros Hs. rewrite steps_ascii by done.
  apply strip_Forall, whitespace_collapse_Forall.
  by apply space_joined_settled, first_steps_settled.
Qed.



(** A string with these properties is left as it is. *)
Lemma steps_fixed r :
  Forall (settled o 7) r →
  has_double_space r = false →
  starts_with_space r = false →
  ends_with_space r = false →
  (remove_spaces o = true → space_join [32] r = r) →
  steps_after_decoding L o r = r.
Proof.
  intros Hr Hd Hs He Hj.
  assert (Forall (settled o 0) r) as H0.
  { eapply Forall_impl; [exact Hr|]. intros c Hc. clear -Hc. settle. }
  rewrite steps_ascii by done.
  assert (first_steps L o r = r) as ->.
  { unfold first_steps. rewrite Hfill.
    rewrite (when_id (unhyphenate o) unhyphenate_lines r).
    2:{ intros Hb. apply unhyphenate_lines_id.
        eapply Forall_impl; [exact Hr|]. intros c Hc.
        apply not_stripped_not_hyphen. apply Hc; [lia | by apply Hhyph]. }
    rewrite (when_id (lower o) (lowercase L) r).
    2:{ intros Hb. unfold lowercase.
        rewrite (lower_ascii L HL) by by eapply settled_ascii.
        apply fmap_fixed. eapply Forall_impl; [exact Hr|].
        intros c Hc. apply Hc; [lia | done]. }
    rewrite (when_id (normalize o) (spelling_normalize L) r).
    2:{ intros Hb. unfold spelling_normalize.
        rewrite (replace_ascii L HL) by by eapply settled_ascii.
        apply fmap_fixed. eapply Forall_impl; [exact Hr|].
        intros c Hc. apply Hc; [lia | done]. }
    rewrite (when_id (negb (punctuation o)) (punctuation_strip [32]) r).
    2:{ intros Hb%negb_true_iff. apply replace_chars_id.
        eapply Forall_impl; [exact Hr|]. intros c Hc. apply Hc; [lia | done]. }
    rewrite (when_id (negb (numbers o)) (number_strip [32]) r).
    2:{ intros Hb%negb_true_iff. apply replace_chars_id.
        eapply Forall_impl; [exact Hr|]. intros c Hc. apply Hc; [lia | done]. }
    apply when_id. intros Hb. rewrite line_join_fmap. apply fmap_fixed.
    eapply Forall_impl; [exact Hr|]. intros c Hc. unfold newline_to_space.
    rewrite bool_decide_eq_false_2; [done|]. apply Hc; [lia | done]. }
  rewrite (when_id (remove_spaces o) (space_join [32]) r) by done.
  rewrite whitespace_collapse_id by done. by apply strip_id.
Qed.



End Idempotence.

(** ** The reference library, continued *)

Lemma ref_ascii_library : ascii_library RefLib.
Proof.
  split.
  - apply ref_unescape_no_amp.
  - done.
  - done.
  - intros f s Hs. simpl. apply fmap_fixed.
    eapply Forall_impl; [exact Hs|]. intros c Hc. simpl in *.
    unfold Ref.singleton. repeat case_bool_decide; try done; lia.
  - intros c Hc. simpl. unfold Ref.combining. case_bool_decide; [lia | done].
Qed.

Lemma ref_decomposes_fully : decomposes_fully RefLib.
Proof.
  intros s. simpl. rewrite Forall_fmap. apply Forall_forall.
  intros c _. simpl. f_equal. unfold Ref.singleton.
  repeat case_bool_decide; done.
Qed.

Lemma ref_composes_without_class : composes_without_class RefLib.
Proof.
  intros s Hs. simpl. rewrite Forall_fmap.
  eapply Forall_impl; [exact Hs|]. intros c [Hk [= Hc]]. simpl.
  by rewrite Hc.
Qed.

(** ** Words between whitespace *)

Lemma join_cons_replicate sep w ws :
  Py.join sep (w :: ws)
  = w ++ concat (zip_with app (replicate (length ws) sep) ws).
Proof.
  revert w. induction ws as [|w' ws IH]; intros w.
  - simpl. by rewrite app_nil_r.
  - rewrite join_cons by done. rewrite IH. simpl. by rewrite <- app_assoc.
Qed.

(** [sep.join] puts [sep] before every piece but the first. *)
Lemma join_separators sep ws :
  Py.join sep ws = concat (zip_with app (separators (length ws) sep) ws).
Proof.
  destruct ws as [|w ws]; [done|]. rewrite join_cons_replicate. done.
Qed.

Lemma blank_cons c g : Py.isspace c = true → blank g → blank (c :: g).
Proof. intros Hc Hg. constructor; [by rewrite Hc | done]. Qed.

Lemma blank_head_space c g : blank (c :: g) → Py.isspace c = true.
Proof. intros [Hc _]%Forall_cons. by apply Is_true_eq_true. Qed.

(** [s.split()] gives the words of [s]. *)
Lemma split_ws_words_of s : words_of s (Py.split_ws s).
Proof.
  split; [apply split_ws_words|].
  induction s as [|c r (gaps & g & Hlen & Hgaps & Hg & Htl & Hr)].
  { exists [], []. repeat split; constructor. }
  pose proof (split_ws_words r) as Hws.
  rewrite split_ws_cons. destruct (Py.isspace c) eqn:Hc.
  - destruct gaps as [|g1 gs].
    + exists [], (c :: g). destruct (Py.split_ws r); [|done].
      simpl in Hr. subst r. repeat split; try done. by apply blank_cons.
    + exists ((c :: g1) :: gs), g.
      destruct (Py.split_ws r) as [|w ws]; [done|].
      apply Forall_cons in Hgaps as [Hg1 Hgs].
      repeat split; try done.
      * constructor; [by apply blank_cons | done].
      * simpl in Hr |- *. by rewrite Hr.
  - destruct (bool_decide (r = []) || starts_with_space r) eqn:Hsp.
    + exists ([] :: gaps), g. repeat split; try done.
      * simpl. by rewrite Hlen.
      * constructor; [constructor | done].
      * simpl. destruct gaps as [|g1 gs]; [constructor|].
        constructor; [|done]. intros ->.
        destruct (Py.split_ws r) as [|w ws]; [done|].
        apply Forall_cons in Hws as [[Hne Hw] _].
        destruct w as [|d w]; [done|]. apply Forall_cons in Hw as [Hd _].
        simpl in Hr. subst r. simpl in Hsp.
        unfold starts_with_space in Hsp. simpl in Hsp. congruence.
      * simpl. by rewrite <- Hr.
    + apply orb_false_elim in Hsp as [Hne Hsp].
      destruct (Py.split_ws r) as [|w ws].
      * destruct gaps; [|done]. simpl in Hr. subst r.
        exists [[]], g. repeat split; try done; repeat constructor.
      * destruct gaps as [|g1 gs]; [done|].
        assert (g1 = []) as ->.
        { destruct g1 as [|x g1]; [done|].
          apply Forall_cons in Hgaps as [Hx%blank_head_space _].
          simpl in Hr. subst r. unfold starts_with_space in Hsp.
          simpl in Hsp. congruence. }
        exists ([] :: gs), g. repeat split; try done.
        simpl in Hr |- *. by rewrite Hr.
Qed.

Lemma blank_tail c g : blank (c :: g) → blank g.
Proof. by intros [_ Hg]%Forall_cons. Qed.

Lemma Forall_tail_of {A} (P : A → Prop) (l : list A) :
  Forall P l → Forall P (tail l).
Proof. intros [|x l' _ Hl]; [constructor | done]. Qed.

(** What follows a word is empty or begins with whitespace. *)
Lemma after_word_space gs ws g :
  length gs = length ws → Forall blank gs → Forall (λ x, x ≠ []) gs →
  blank g →
  bool_decide (concat (zip_with app gs ws) ++ g = [])
  || starts_with_space (concat (zip_with app gs ws) ++ g) = true.
Proof.
  intros Hlen Hgs Hne Hg. destruct gs as [|[|y g2] gs], ws as [|w ws];
    try done.
  - simpl. destruct g as [|y g]; [done|].
    unfold starts_with_space. simpl. by apply blank_head_space in Hg.
  - by apply Forall_cons in Hne as [? _].
  - apply Forall_cons in Hgs as [Hy%blank_head_space _].
    unfold starts_with_space. simpl. by rewrite Hy.
Qed.

(** The words of [s] are the pieces of [s.split()] and no others. *)
Lemma words_of_split_ws s ws : words_of s ws → ws = Py.split_ws s.
Proof.
  revert ws. induction s as [|c r IH];
    intros ws (Hw & gaps & g & Hlen & Hgaps & Hg & Htl & Hs).
  { destruct ws as [|w ws]; [done|]. destruct gaps as [|g1 gs]; [done|].
    apply Forall_cons in Hw as [[Hne _] _]. simpl in Hs. symmetry in Hs.
    apply app_eq_nil in Hs as [[[_ ?]%app_eq_nil _]%app_eq_nil _]. done. }
  rewrite split_ws_cons. destruct ws as [|w ws].
  { destruct gaps; [|done]. simpl in Hs. subst g.
    rewrite (blank_head_space _ _ Hg). apply IH. split; [constructor|].
    exists [], r. apply blank_tail in Hg. repeat split; try done; constructor. }
  destruct gaps as [|g1 gs]; [done|]. injection Hlen as Hlen.
  apply Forall_cons in Hw as [[Hne Hw] Hws].
  apply Forall_cons in Hgaps as [Hg1 Hgs]. cbn [tail] in Htl.
  destruct g1 as [|x g1].
  - destruct w as [|d w]; [done|]. apply Forall_cons in Hw as [Hd Hw].
    simpl in Hs. injection Hs as -> Hr. rewrite Hd. destruct w as [|e w].
    + cbn [app] in Hr. subst r. rewrite after_word_space by done.
      f_equal. apply IH. split; [done|]. exists gs, g.
      repeat split; try done. by apply Forall_tail_of.
    + apply Forall_cons in Hw as [He Hw].
      assert (bool_decide (r = []) || starts_with_space r = false) as ->.
      { subst r. unfold starts_with_space. simpl. by rewrite He. }
      rewrite <- (IH ((e :: w) :: ws)); [done|].
      split; [constructor; [split; [done | by constructor] | done]|].
      exists ([] :: gs), g. repeat split; try done.
      * simpl. by rewrite Hlen.
      * constructor; [constructor | done].
  - simpl in Hs. injection Hs as -> Hr. rewrite (blank_head_space _ _ Hg1). apply IH.
    split; [constructor; [split |]; done|].
    exists (g1 :: gs), g. repeat split; try done.
    + simpl. by rewrite Hlen.
    + constructor; [by apply blank_tail in Hg1 | done].
Qed.

(** * Main results *)

(** C1, as the code has it: [preprocess] returns the composition of the
    twelve steps in the stated order, each enabled by the option of the
    caller (and raises what the first step raises, if it does).  Every
    statement leaves every parameter as it is, except that
    the punctuation statement (the fifth), when it runs, rebinds
    [punctuation] to the string of punctuation characters; no later
    statement reads that variable. *)
Theorem preprocess_fixed_order (L : PyLib) (s : text) (o : Options) :
  preprocess L s o = normalize_spec L o s
  ∧ (∀ i stmt l l',
       statements L !! i = Some stmt → stmt l = Return l' →
       other_parameters l' = other_parameters l
       ∧ (v_punctuation l' = v_punctuation l
          ∨ i = 4%nat ∧ truth (v_punctuation l) = false
            ∧ v_punctuation l' = PyStr punctuation_chars))
  ∧ (∀ i stmt l v,
       statements L !! i = Some stmt → (4 < i)%nat →
       stmt (set_punctuation l v)
       = (l' ← stmt l; Return (set_punctuation l' v))).
Proof.
  split; [apply preprocess_returns|]. split.
  - intros i stmt l l' Hi Hstmt.
    unfold statements in Hi.
    destruct i as [|[|[|[|[|[|[|[|[|[|[|i]]]]]]]]]]]; simplify_eq/=.
    + rewrite if_not_entities_returns in Hstmt.
      destruct (if negb (v_entities l) then _ else _) as [d|e]; [|done].
      injection Hstmt as <-. auto.
    + rewrite if_unhyphenate_returns in Hstmt. injection Hstmt as <-. auto.
    + rewrite if_lower_returns in Hstmt. injection Hstmt as <-. auto.
    + rewrite if_normalize_returns in Hstmt. injection Hstmt as <-. auto.
    + rewrite if_not_punctuation_returns in Hstmt. injection Hstmt as <-.
      destruct (truth (v_punctuation l)) eqn:E; auto.
    + rewrite if_not_numbers_returns in Hstmt. injection Hstmt as <-. auto.
    + rewrite if_remove_lines_returns in Hstmt. injection Hstmt as <-. auto.
    + rewrite if_remove_spaces_returns in Hstmt. injection Hstmt as <-. auto.
    + rewrite if_not_diacriticals_returns in Hstmt. injection Hstmt as <-. auto.
    + injection Hstmt as <-. auto.
    + injection Hstmt as <-. auto.
  - intros i stmt l v Hi Hlt.
    unfold statements in Hi.
    destruct i as [|[|[|[|[|[|[|[|[|[|[|i]]]]]]]]]]]; simplify_eq/=; try lia.
    + by rewrite !if_not_numbers_returns.
    + by rewrite !if_remove_lines_returns.
    + by rewrite !if_remove_spaces_returns.
    + by rewrite !if_not_diacriticals_returns.
    + done.
    + done.
Qed.

Lemma preprocess_fixed_order_witness :
  preprocess RefLib (Py.str "Iam venio") default_options
  = normalize_spec RefLib default_options (Py.str "Iam venio")
  ∧ (other_parameters (set_text (bind_arguments (Py.str "Iam") default_options)
                         (Py.str "iam"))
     = other_parameters (bind_arguments (Py.str "Iam") default_options)
     ∧ (v_punctuation (set_text (bind_arguments (Py.str "Iam") default_options)
                         (Py.str "iam"))
        = v_punctuation (bind_arguments (Py.str "Iam") default_options)
        ∨ 2%nat = 4%nat
          ∧ truth (v_punctuation (bind_arguments (Py.str "Iam") default_options))
            = false
          ∧ v_punctuation (set_text (bind_arguments (Py.str "Iam") default_options)
                             (Py.str "iam"))
            = PyStr punctuation_chars))
  ∧ if_remove_lines
      (set_punctuation (bind_arguments [97; 10; 98] default_options)
         (PyStr punctuation_chars))
    = (l' ← if_remove_lines (bind_arguments [97; 10; 98] default_options);
       Return (set_punctuation l' (PyStr punctuation_chars))).
Proof.
  destruct (preprocess_fixed_order RefLib (Py.str "Iam venio") default_options)
    as (H1 & H2 & H3).
  split; [exact H1|]. split.
  - apply (H2 2%nat (if_lower RefLib)); reflexivity.
  - apply (H3 6%nat); [reflexivity | lia].
Defined.

(** C1, as stated, fails in its last part: the punctuation statement is one
    of the statements, and with [punctuation] false it changes the
    parameter [punctuation]. *)
Lemma punctuation_statement_rebinds_flag :
  statements RefLib !! 4%nat = Some if_not_punctuation
  ∧ ∃ l', if_not_punctuation (bind_arguments [] default_options) = Return l'
          ∧ v_punctuation (bind_arguments [] default_options) = PyBool false
          ∧ v_punctuation l' = PyStr punctuation_chars
          ∧ set_text l' [] ≠ set_text (bind_arguments [] default_options) [].
Proof.
  split; [reflexivity|]. rewrite if_not_punctuation_returns.
  eexists. split; [reflexivity|]. repeat split. discriminate.
Qed.

(** C2, as the code has it: [remove_diacriticals] returns the NFD form of
    the text without the code points below U+10FFFF whose canonical
    combining class ([unicodedata.combining]) is not zero. *)
Theorem remove_diacriticals_by_class (L : PyLib) (s : text) :
  remove_diacriticals L s
  = Return (filter (λ c, ¬ (0 ≤ c < 1114111 ∧ unicodedata_combining L c ≠ 0))
              (unicodedata_normalize L NFD s)).
Proof.
  rewrite remove_diacriticals_returns. f_equal. unfold diacritic_strip.
  apply list_filter_iff. intros c. unfold deleted, Py.sys_maxunicode.
  rewrite andb_True, bool_decide_spec, negb_True, Is_true_true, Z.eqb_eq.
  tauto.
Qed.

(** C2, as stated, fails: the enclosing circle U+20DD is a combining mark
    (category [Me]) of class 0, and [remove_diacriticals] keeps it. *)
Lemma remove_diacriticals_keeps_enclosing_mark :
  remove_diacriticals RefLib [0x61; 0x20DD] = Return [0x61; 0x20DD]
  ∧ remove_diacriticals RefLib [0x61; 0x20DD]
    ≠ Return (filter (λ c, ¬ unicodedata_is_mark RefLib c)
                (unicodedata_normalize RefLib NFD [0x61; 0x20DD])).
Proof.
  rewrite remove_diacriticals_returns. split; [reflexivity|].
  vm_compute. discriminate.
Qed.

(** C3, as the code has it: with [entities] false the entity of
    [foo&amp;bar] is decoded first, so the text that reaches the punctuation
    statement is [foo&bar]; with the other options at their defaults that
    statement then replaces [&] by the fill, and [preprocess] returns
    [foo bar]; it returns [foo&bar] when [punctuation] is true.  The
    library is asked to behave on these strings as CPython does. *)
Theorem entity_decoded_before_punctuation (L : PyLib) :
  html_unescape L (Py.str "foo&amp;bar") = Return (Py.str "foo&bar") →
  str_lower L (Py.str "foo&bar") = Py.str "foo&bar" →
  JVReplacer_replace L (Py.str "foo&bar") = Py.str "foo&bar" →
  unicodedata_normalize L NFC (Py.str "foo bar") = Py.str "foo bar" →
  unicodedata_normalize L NFC (Py.str "foo&bar") = Py.str "foo&bar" →
  run [if_not_entities L; if_unhyphenate; if_lower L; if_normalize L]
    (bind_arguments (Py.str "foo&amp;bar") default_options)
  = Return (bind_arguments (Py.str "foo&bar") default_options)
  ∧ preprocess L (Py.str "foo&amp;bar") default_options
    = Return (Py.str "foo bar")
  ∧ preprocess L (Py.str "foo&amp;bar") keeping_punctuation
    = Return (Py.str "foo&bar").
Proof.
  intros H1 H2 H3 H4 H5. split; [|split].
  - rewrite run_cons, if_not_entities_returns.
    unfold default_options. step. rewrite H1. step.
    rewrite run_cons, if_unhyphenate_returns; step.
    rewrite run_cons, if_lower_returns; step.
    rewrite run_cons, if_normalize_returns; step.
    unfold lowercase, spelling_normalize.
    rewrite H2, H3. reflexivity.
  - rewrite (preprocess_decoded L _ _ (Py.str "foo&bar")) by exact H1.
    f_equal.
    unfold steps_after_decoding, conditional_steps, first_steps,
      default_options. step.
    unfold lowercase, spelling_normalize, unicode_recompose.
    rewrite H2, H3.
    assert (whitespace_collapse
              (number_strip [32] (punctuation_strip [32] (Py.str "foo&bar")))
            = Py.str "foo bar") as -> by reflexivity.
    rewrite H4. reflexivity.
  - rewrite (preprocess_decoded L _ _ (Py.str "foo&bar")) by exact H1.
    f_equal.
    unfold steps_after_decoding, conditional_steps, first_steps,
      keeping_punctuation. step.
    unfold lowercase, spelling_normalize, unicode_recompose.
    rewrite H2, H3.
    assert (whitespace_collapse (number_strip [32] (Py.str "foo&bar"))
            = Py.str "foo&bar") as -> by reflexivity.
    rewrite H5. reflexivity.
Qed.

Lemma entity_decoded_before_punctuation_witness :
  run [if_not_entities RefLib; if_unhyphenate; if_lower RefLib;
       if_normalize RefLib]
    (bind_arguments (Py.str "foo&amp;bar") default_options)
  = Return (bind_arguments (Py.str "foo&bar") default_options)
  ∧ preprocess RefLib (Py.str "foo&amp;bar") default_options
    = Return (Py.str "foo bar")
  ∧ preprocess RefLib (Py.str "foo&amp;bar") keeping_punctuation
    = Return (Py.str "foo&bar").
Proof.
  apply (entity_decoded_before_punctuation RefLib); reflexivity.
Defined.

(** C3, as stated, fails: with the options at their defaults the result is
    [foo bar], not [foo&bar]. *)
Lemma entity_then_punctuation_stripped :
  preprocess RefLib (Py.str "foo&amp;bar") default_options
  = Return (Py.str "foo bar")
  ∧ preprocess RefLib (Py.str "foo&amp;bar") default_options
    ≠ Return (Py.str "foo&bar").
Proof. rewrite preprocess_returns. split; [reflexivity | discriminate]. Qed.




(** The same with every option at its default: NFC maps U+2329 to the angle
    bracket U+3008, which the punctuation statement of a second pass
    replaces by the fill. *)
Example preprocess_recomposes_into_punctuation :
  preprocess RefLib [0x2329] default_options = Return [0x3008]
  ∧ preprocess RefLib [0x3008] default_options = Return [].
Proof. rewrite !preprocess_returns. split; reflexivity. Qed.

(** C5: when [numbers] is false the number-removal statement replaces each
    ASCII digit by [fill], and the result of [preprocess] holds no ASCII
    digit; this for every text that [html.unescape] decodes and all options
    whose [fill] holds no digit (the default is one space), given that
    Unicode normalization adds no digit. *)
Theorem preprocess_digit_free (L : PyLib) (s : text) (o : Options) :
  normalize_adds_no_digit L →
  numbers o = false →
  digit_free (fill o) →
  (entities o = false → returns (html_unescape L s)) →
  (∀ l, v_numbers l = false →
        if_not_numbers l
        = Return (set_text l
                    (v_text l ≫= λ c, if is_digit c then v_fill l else [c])))
  ∧ ∃ r, preprocess L s o = Return r ∧ digit_free r.
Proof.
  intros HL Hn Hfill Hdec. split.
  - intros l Hl. rewrite if_not_numbers_returns, Hl. cbn [negb when].
    by rewrite number_strip_by_digit.
  - destruct (entity_decode_returns L s o Hdec) as [d Hd].
    eexists. split; [by apply preprocess_decoded|].
    unfold steps_after_decoding, trim, unicode_recompose.
    apply strip_Forall, HL, whitespace_collapse_Forall.
    unfold conditional_steps, first_steps. rewrite Hn. cbn [negb].
    apply when_Forall; [intros H; by apply filter_Forall, HL|].
    apply when_Forall; [by apply space_join_Forall|].
    apply when_Forall; [by apply line_join_Forall|].
    unfold when at 1. by apply number_strip_digit_free.
Qed.

Lemma preprocess_digit_free_witness :
  if_not_numbers (bind_arguments (Py.str "a1") default_options)
  = Return (set_text (bind_arguments (Py.str "a1") default_options)
              (Py.str "a "))
  ∧ ∃ r, preprocess RefLib (Py.str "a1b22 c") default_options = Return r
         ∧ digit_free r.
Proof.
  destruct (preprocess_digit_free RefLib (Py.str "a1b22 c") default_options)
    as [H1 H2].
  - intros f s. apply ref_normalize_digit_free.
  - reflexivity.
  - by repeat constructor.
  - intros _. by eexists.
  - split; [|exact H2].
    apply (H1 (bind_arguments (Py.str "a1") default_options)). reflexivity.
Defined.

(** C6, as the code has it: when [diacriticals] is false, the result of
    [preprocess] holds no code point that [remove_diacriticals] deletes,
    that is, none below U+10FFFF of nonzero canonical combining class;
    this for every text that [html.unescape] decodes, given the two facts
    of normalization above. *)
Theorem preprocess_without_combining_class (L : PyLib) (s : text) (o : Options) :
  decomposes_fully L →
  composes_without_class L →
  diacriticals o = false →
  (entities o = false → returns (html_unescape L s)) →
  ∃ r, preprocess L s o = Return r ∧ Forall (λ c, deleted L c = false) r.
Proof.
  intros Hd Hc Ho Hdec.
  destruct (entity_decode_returns L s o Hdec) as [d Hdd].
  eexists. split; [by apply preprocess_decoded|].
  unfold steps_after_decoding, trim, unicode_recompose.
  apply strip_Forall, Hc, whitespace_collapse_Forall.
  unfold conditional_steps, first_steps. rewrite Ho. cbn [negb when].
  unfold diacritic_strip. apply Forall_forall.
  intros c [Hk Hin]%list_elem_of_filter. split.
  - by destruct (deleted L c).
  - exact (proj1 (Forall_forall _ _) (Hd _) c Hin).
Qed.

Lemma preprocess_without_combining_class_witness :
  ∃ r, preprocess RefLib [0x71; 0x301; 0x20; 0x61] without_diacriticals
       = Return r
       ∧ Forall (λ c, deleted RefLib c = false) r.
Proof.
  apply (preprocess_without_combining_class RefLib
           [0x71; 0x301; 0x20; 0x61] without_diacriticals).
  - apply ref_decomposes_fully.
  - apply ref_composes_without_class.
  - reflexivity.
  - intros _. by eexists.
Defined.

(** C6, as stated, fails: with [diacriticals] false the result still holds
    the combining mark U+20DD. *)
Lemma preprocess_keeps_enclosing_mark :
  preprocess RefLib [0x61; 0x20DD] without_diacriticals
  = Return [0x61; 0x20DD]
  ∧ unicodedata_is_mark RefLib 0x20DD = true.
Proof. rewrite preprocess_returns. split; reflexivity. Qed.

(** C7: the line-joining statement, when [remove_lines] is true, puts one
    space (U+0020) in the place of every newline, whatever [fill] is; the
    space-joining statement, when [remove_spaces] is true, takes the words
    that stand between the runs of whitespace of the text, which are
    determined by the text, and puts [fill] between them. *)
Theorem line_join_space_space_join_fill (l : Locals) :
  if_remove_lines l
  = Return (set_text l (if v_remove_lines l
                        then newline_to_space <$> v_text l
                        else v_text l))
  ∧ ∃ ws,
      words_of (v_text l) ws
      ∧ (∀ ws', words_of (v_text l) ws' → ws' = ws)
      ∧ if_remove_spaces l
        = Return (set_text l
                    (if v_remove_spaces l
                     then concat (zip_with app
                                    (separators (length ws) (v_fill l)) ws)
                     else v_text l)).
Proof.
  split.
  - rewrite if_remove_lines_returns. unfold when.
    by rewrite line_join_fmap.
  - exists (Py.split_ws (v_text l)).
    split; [apply split_ws_words_of|]. split; [apply words_of_split_ws|].
    rewrite if_remove_spaces_returns. unfold when, space_join.
    by rewrite join_separators.
Qed.

(** The words of a text between underscores, and lines joined by a space
    under the same [fill]. *)
Example space_join_puts_fill_between_words :
  if_remove_spaces
    (bind_arguments [32; 97; 98; 9; 10; 99; 32; 32; 100; 32]
       joining_with_underscore)
  = Return (set_text
              (bind_arguments [32; 97; 98; 9; 10; 99; 32; 32; 100; 32]
                 joining_with_underscore)
              (Py.str "ab_c_d"))
  ∧ words_of [32; 97; 98; 9; 10; 99; 32; 32; 100; 32]
      [Py.str "ab"; Py.str "c"; Py.str "d"].
Proof.
  split; [reflexivity|].
  exact (split_ws_words_of [32; 97; 98; 9; 10; 99; 32; 32; 100; 32]).
Qed.

(** C8, as the code has it: [preprocess] returns a string exactly when the
    call of [html.unescape] at line 47 returns one for the text, which is
    always so when [entities] is true, for the call is then skipped; when
    that call raises, [preprocess] raises the same exception, and nothing
    else in it raises.  Every statement after the first returns on any
    values of the local variables, and [remove_diacriticals] returns a
    string for every text. *)
Theorem preprocess_raises_only_decoding (L : PyLib) (s : text) (o : Options) :
  (returns (preprocess L s o)
   ↔ (entities o = false → returns (html_unescape L s)))
  ∧ (∀ e, preprocess L s o = Raise e
          ↔ entities o = false ∧ html_unescape L s = Raise e)
  ∧ Forall (λ stmt, ∀ l, returns (stmt l)) (tail (statements L))
  ∧ returns (remove_diacriticals L s)
  ∧ (∀ e, remove_diacriticals L s ≠ Raise e).
Proof.
  split; [|split; [|split; [|split]]].
  - rewrite preprocess_returns. unfold normalize_spec, entity_decode, returns.
    destruct (entities o); cbn [negb].
    + split; [done|]. intros _. by eexists.
    + destruct (html_unescape L s) as [d|e]; cbn [mbind exc_bind].
      * split; intros _; [intros _|]; by eexists.
      * split; [by intros [r Hr] | intros H; by apply H].
  - intros e. rewrite preprocess_returns. unfold normalize_spec, entity_decode.
    destruct (entities o); cbn [negb mbind exc_bind].
    + split; [done | by intros [? _]].
    + destruct (html_unescape L s) as [d|e']; cbn [mbind exc_bind].
      * split; [done | by intros [_ ?]].
      * split; [by intros [= ->] | by intros [_ [= ->]]].
  - unfold statements, returns. cbn [tail]. repeat constructor; intros l.
    + rewrite if_unhyphenate_returns. eauto.
    + rewrite if_lower_returns. eauto.
    + rewrite if_normalize_returns. eauto.
    + rewrite if_not_punctuation_returns. eauto.
    + rewrite if_not_numbers_returns. eauto.
    + rewrite if_remove_lines_returns. eauto.
    + rewrite if_remove_spaces_returns. eauto.
    + rewrite if_not_diacriticals_returns. eauto.
    + unfold fix_spacing. eauto.
    + unfold recompose. eauto.
  - rewrite remove_diacriticals_returns. by eexists.
  - rewrite remove_diacriticals_returns. discriminate.
Qed.

Lemma preprocess_raises_only_decoding_witness :
  returns (preprocess RefLib (Py.str "foo&amp;bar") default_options)
  ∧ returns (remove_diacriticals RefLib (Py.str "foo&amp;bar")).
Proof.
  pose proof (preprocess_raises_only_decoding RefLib (Py.str "foo&amp;bar")
                default_options) as (Hr & _ & _ & Hd & _).
  split; [|exact Hd]. apply Hr. intros _. by eexists.
Defined.

(** C8, as stated, fails: on a decimal character reference of 4301 digits
    [html.unescape] raises [ValueError], and so does [preprocess] with the
    default options. *)
Lemma preprocess_raises_on_long_reference :
  preprocess RefLib long_reference default_options
  = Raise (ValueError "Exceeds the limit (4300 digits) for integer string conversion")
  ∧ ¬ returns (preprocess RefLib long_reference default_options).
Proof.
  assert (preprocess RefLib long_reference default_options
          = Raise (ValueError "Exceeds the limit (4300 digits) for integer string conversion")) as H.
  { rewrite preprocess_returns. by vm_compute. }
  split; [exact H|]. rewrite H. by intros [r Hr].
Qed.

(** C9: the string that [preprocess] returns, which it does when the call
    of [html.unescape] returns, neither begins nor ends with a whitespace
    character and holds no two consecutive spaces (U+0020), for every text
    and all options, given that NFC normalization brings no two spaces
    together. *)
Theorem preprocess_spacing (L : PyLib) (s : text) (o : Options) :
  recompose_keeps_spacing L →
  (entities o = false → returns (html_unescape L s)) →
  ∃ r, preprocess L s o = Return r
       ∧ starts_with_space r = false
       ∧ ends_with_space r = false
       ∧ has_double_space r = false.
Proof.
  intros HL [d Hd]%(entity_decode_returns L s o).
  eexists. split; [by apply preprocess_decoded|].
  unfold steps_after_decoding, trim. split; [apply strip_starts|].
  split; [apply strip_ends|].
  apply strip_no_double_space, HL, whitespace_collapse_no_double_space.
Qed.

Lemma preprocess_spacing_witness :
  ∃ r, preprocess RefLib (Py.str "  a   b  ") default_options = Return r
       ∧ starts_with_space r = false
       ∧ ends_with_space r = false
       ∧ has_double_space r = false.
Proof.
  apply (preprocess_spacing RefLib (Py.str "  a   b  ") default_options).
  - intros s Hs. by rewrite ref_normalize_spacing.
  - intros _. by eexists.
Defined.

(** C10: for all options, [preprocess] returns the empty string when the
    text is empty or holds whitespace characters only, given that the
    library functions map such a text to such a text. *)
Theorem preprocess_blank (L : PyLib) (s : text) (o : Options) :
  decodes_blank L →
  keeps_blank (str_lower L) →
  keeps_blank (JVReplacer_replace L) →
  (∀ f, keeps_blank (unicodedata_normalize L f)) →
  blank s →
  preprocess L s o = Return [].
Proof.
  intros H1 H2 H3 H4 Hs.
  assert (∃ d, entity_decode L o s = Return d ∧ blank d) as (d & Hd & Hb).
  { unfold entity_decode. destruct (entities o); cbn [negb]; [by exists s|].
    by apply H1. }
  rewrite (preprocess_decoded L s o d Hd). f_equal.
  unfold steps_after_decoding, trim, unicode_recompose.
  apply strip_blank, H4, whitespace_collapse_Forall.
  by apply conditional_steps_blank.
Qed.

Lemma preprocess_blank_witness :
  preprocess RefLib [32; 9; 10; 0xA0; 32] default_options = Return [].
Proof.
  apply (preprocess_blank RefLib [32; 9; 10; 0xA0; 32] default_options).
  - apply ref_unescape_blank.
  - apply ref_lower_blank.
  - apply ref_replace_blank.
  - apply ref_normalize_blank.
  - by repeat constructor.
Defined.

(** With [unhyphenate] and [punctuation] both true a second pass joins a
    break that the first pass left. *)
Example preprocess_unhyphenates_again :
  preprocess RefLib [45; 45; 10; 10; 10; 120] unhyphenating_keeping_punctuation
  = Return [45; 10; 120]
  ∧ preprocess RefLib [45; 10; 120] unhyphenating_keeping_punctuation
    = Return [120].
Proof. rewrite !preprocess_returns. split; reflexivity. Qed.

(** ** Examples *)

Example preprocess_hello_world :
  preprocess RefLib (Py.str "Hello, World! 123") default_options
  = Return (Py.str "hello world").
Proof. rewrite preprocess_returns. reflexivity. Qed.

Example preprocess_iam_venio :
  preprocess RefLib (Py.str "Iam venio") default_options
  = Return (Py.str "iam uenio").
Proof. rewrite preprocess_returns. reflexivity. Qed.

Example preprocess_space_join_underscore :
  preprocess RefLib [97; 32; 32; 32; 98; 9; 99] joining_with_underscore
  = Return (Py.str "a_b_c").
Proof. rewrite preprocess_returns. reflexivity. Qed.

Example preprocess_line_join_space :
  preprocess RefLib [97; 10; 98] joining_lines_with_underscore
  = Return (Py.str "a b").
Proof. rewrite preprocess_returns. reflexivity. Qed.

Example preprocess_multiline :
  preprocess RefLib (Py.str "multi-" ++ [10] ++ Py.str "line") unhyphenating
  = Return (Py.str "multiline").
Proof. rewrite preprocess_returns. reflexivity. Qed.

(** * Further properties of the statements *)

(** ** Unhyphenation, line 50 *)

Lemma re_sub_from_delete_sublist m k s :
  Py.re_sub_from m [] k s `sublist_of` s.
Proof.
  revert k. induction s as [|c r IH]; intros k; [done|].
  cbn [Py.re_sub_from]. destruct k as [|k]; [|apply sublist_cons, IH].
  destruct (m (c :: r)) as [[|n]|].
  - apply sublist_skip, IH.
  - apply sublist_cons, IH.
  - apply sublist_skip, IH.
Qed.

Lemma hyphen_break_no_newline s :
  Forall (λ c, c ≠ 10) s → hyphen_break s = None.
Proof.
  intros Hs. unfold hyphen_break.
  destruct Hs as [|h r Hh Hr]; [done|]. destruct Hr as [|w r Hw Hr]; [done|].
  destruct (is_hyphen h); [|done].
  rewrite (bool_decide_eq_false_2 (w = 10)) by done.
  destruct Hr as [|n r Hn Hr]; [done|].
  rewrite (bool_decide_eq_false_2 (n = 10)) by done.
  by rewrite andb_false_r.
Qed.

Lemma unhyphenate_lines_no_newline s :
  Forall (λ c, c ≠ 10) s → unhyphenate_lines s = s.
Proof.
  induction 1 as [|c r Hc Hr IH]; [done|]. unfold unhyphenate_lines in *.
  rewrite re_sub_cons, hyphen_break_no_newline by by constructor.
  by rewrite IH.
Qed.

(** X1: the unhyphenation statement only deletes characters, and it leaves
    the text as it is when the text holds no newline or none of the three
    hyphen characters. *)
Theorem unhyphenate_only_deletes (l : Locals) :
  ∃ l', if_unhyphenate l = Return l'
        ∧ v_text l' `sublist_of` v_text l
        ∧ (Forall (λ c, c ≠ 10) (v_text l) → v_text l' = v_text l)
        ∧ (Forall (λ c, is_hyphen c = false) (v_text l)
           → v_text l' = v_text l).
Proof.
  eexists. split; [apply if_unhyphenate_returns|].
  cbn [v_text set_text]. unfold when. destruct (v_unhyphenate l).
  - split; [apply re_sub_from_delete_sublist|]. split.
    + apply unhyphenate_lines_no_newline.
    + apply unhyphenate_lines_id.
  - done.
Qed.

Lemma unhyphenate_lines_app w s :
  Forall (λ c, is_hyphen c = false) w →
  unhyphenate_lines (w ++ s) = w ++ unhyphenate_lines s.
Proof.
  induction 1 as [|c r Hc Hr IH]; [done|]. unfold unhyphenate_lines in *.
  cbn [app]. rewrite re_sub_cons, hyphen_break_other by done.
  by rewrite IH.
Qed.

(** X2: a hyphen character followed by a newline, or by one whitespace
    character and a newline, is deleted together with them, which joins the
    word across the line break; the bare newline is taken when no second
    newline follows it. *)
Theorem unhyphenate_joins_break (w1 w2 : text) (h sp : Z) :
  Forall (λ c, is_hyphen c = false) w1 →
  is_hyphen h = true →
  Py.isspace sp = true →
  unhyphenate_lines (w1 ++ h :: sp :: 10 :: w2) = w1 ++ unhyphenate_lines w2
  ∧ (head w2 ≠ Some 10 →
     unhyphenate_lines (w1 ++ h :: 10 :: w2) = w1 ++ unhyphenate_lines w2).
Proof.
  intros Hw Hh Hsp. rewrite !unhyphenate_lines_app by done. split.
  - unfold unhyphenate_lines. rewrite re_sub_cons. cbn [hyphen_break].
    rewrite Hh, Hsp, bool_decide_eq_true_2 by done. done.
  - intros Hw2. unfold unhyphenate_lines. rewrite re_sub_cons.
    cbn [hyphen_break]. rewrite Hh.
    destruct w2 as [|n w2].
    + by rewrite bool_decide_eq_true_2.
    + rewrite (bool_decide_eq_false_2 (n = 10)) by (simpl in Hw2; congruence).
      rewrite andb_false_r. by rewrite bool_decide_eq_true_2.
Qed.

Lemma unhyphenate_joins_break_witness :
  unhyphenate_lines (Py.str "multi" ++ 45 :: 32 :: 10 :: Py.str "line")
  = Py.str "multi" ++ unhyphenate_lines (Py.str "line")
  ∧ (head (Py.str "line") ≠ Some 10 →
     unhyphenate_lines (Py.str "multi" ++ 45 :: 10 :: Py.str "line")
     = Py.str "multi" ++ unhyphenate_lines (Py.str "line")).
Proof.
  apply (unhyphenate_joins_break (Py.str "multi") (Py.str "line") 45 32).
  - by repeat constructor.
  - reflexivity.
  - reflexivity.
Defined.

(** ** The translation tables, lines 58-69 *)

(** X4: the translation table depends on the characters of the string it
    is built from only, not on their order or on repetitions (the middle
    dot occurs twice in [misc]). *)
Theorem translation_table_of_set (s1 s2 v : text) :
  (∀ c, c ∈ s1 ↔ c ∈ s2) →
  Py.maketrans (Py.dict_for_key_in s1 v)
  = Py.maketrans (Py.dict_for_key_in s2 v).
Proof.
  intros H. rewrite !maketrans_for_key_in. f_equal. apply map_eq. intros c.
  rewrite !lookup_char_table. by rewrite (bool_decide_ext _ _ (H c)).
Qed.

Lemma translation_table_of_set_witness :
  Py.maketrans (Py.dict_for_key_in [0xB7; 0x2D; 0xB7] [32])
  = Py.maketrans (Py.dict_for_key_in [0x2D; 0xB7] [32]).
Proof.
  apply (translation_table_of_set [0xB7; 0x2D; 0xB7] [0x2D; 0xB7] [32]).
  intros c. rewrite !elem_of_cons, elem_of_nil. tauto.
Defined.

Lemma length_replace_chars set by_ s :
  length (replace_chars set by_ s)
  = (length (filter (λ c, c ∉ set) s)
     + length by_ * length (filter (λ c, c ∈ set) s))%nat.
Proof.
  unfold replace_chars. induction s as [|c r IH]; [simpl; lia|].
  rewrite bind_cons, length_app, IH, !filter_cons.
  destruct (decide (c ∈ set)) as [Hc|Hc].
  - rewrite bool_decide_eq_true_2 by done.
    rewrite decide_False by tauto. simpl. lia.
  - rewrite bool_decide_eq_false_2 by done.
    rewrite decide_True by done. simpl. lia.
Qed.

(** X3: the punctuation and the number statements put [fill] in the place
    of each character of their set and keep the others: the length of the
    text becomes the number of characters kept plus the length of [fill]
    for each character replaced, so a longer [fill] grows the text and the
    empty one deletes. *)
Theorem strip_statements_length (l : Locals) :
  (truth (v_punctuation l) = false →
   ∃ l', if_not_punctuation l = Return l'
         ∧ length (v_text l')
           = (length (filter (λ c, c ∉ misc_chars ++ punctuation_chars)
                        (v_text l))
              + length (v_fill l)
                * length (filter (λ c, c ∈ misc_chars ++ punctuation_chars)
                            (v_text l)))%nat)
  ∧ (v_numbers l = false →
     ∃ l', if_not_numbers l = Return l'
           ∧ length (v_text l')
             = (length (filter (λ c, c ∉ digit_chars) (v_text l))
                + length (v_fill l)
                  * length (filter (λ c, c ∈ digit_chars) (v_text l)))%nat).
Proof.
  split.
  - intros Hp. eexists. split; [apply if_not_punctuation_returns|].
    rewrite Hp. cbn [v_text set_text set_punctuation v_fill].
    apply length_replace_chars.
  - intros Hn. eexists. split; [apply if_not_numbers_returns|].
    rewrite Hn. cbn [v_text set_text negb when].
    apply length_replace_chars.
Qed.

(** ** Spacing and trimming, lines 82-86 *)

Lemma filter_drop_leading_spaces r :
  filter (λ c, c ≠ 32) (drop (leading_spaces r) r) = filter (λ c, c ≠ 32) r.
Proof.
  induction r as [|c r IH]; [done|]. cbn [leading_spaces].
  case_bool_decide as Hc; [|done]. subst. cbn [drop].
  rewrite filter_cons, decide_False by tauto. exact IH.
Qed.

Lemma whitespace_collapse_cons c r :
  whitespace_collapse (c :: r)
  = if bool_decide (c = 32)
    then 32 :: whitespace_collapse (drop (leading_spaces r) r)
    else c :: whitespace_collapse r.
Proof.
  unfold whitespace_collapse. rewrite re_sub_cons. case_bool_decide as Hc.
  - subst. by rewrite spaces_run_space.
  - by rewrite spaces_run_other.
Qed.

Lemma whitespace_collapse_sublist s : whitespace_collapse s `sublist_of` s.
Proof.
  remember (length s) as n eqn:Hn. revert s Hn.
  induction n as [n IH] using lt_wf_ind. intros [|c r] Hn; [done|].
  simpl in Hn. rewrite whitespace_collapse_cons. case_bool_decide as Hc.
  - subst c. apply sublist_skip.
    etrans; [|apply (sublist_drop r (leading_spaces r))].
    eapply IH; [|done]. pose proof (length_drop_le (leading_spaces r) r). lia.
  - apply sublist_skip. eapply (IH (length r)); [lia | done].
Qed.

Lemma whitespace_collapse_other s :
  filter (λ c, c ≠ 32) (whitespace_collapse s) = filter (λ c, c ≠ 32) s.
Proof.
  remember (length s) as n eqn:Hn. revert s Hn.
  induction n as [n IH] using lt_wf_ind. intros [|c r] Hn; [done|].
  simpl in Hn. rewrite whitespace_collapse_cons. case_bool_decide as Hc.
  - subst. rewrite !(filter_cons _ 32), !decide_False by tauto.
    rewrite <- (filter_drop_leading_spaces r).
    eapply IH; [|done]. pose proof (length_drop_le (leading_spaces r) r). lia.
  - rewrite !(filter_cons _ c), !decide_True by done. f_equal.
    eapply (IH (length r)); [lia | done].
Qed.

(** X5: the spacing statement only deletes spaces (U+0020): what it returns
    is a subsequence of the text with the same characters other than
    spaces, in the same order (tabs and newlines are not touched), and
    running it again changes nothing. *)
Theorem fix_spacing_only_spaces (l : Locals) :
  ∃ l', fix_spacing l = Return l'
        ∧ v_text l' `sublist_of` v_text l
        ∧ filter (λ c, c ≠ 32) (v_text l') = filter (λ c, c ≠ 32) (v_text l)
        ∧ fix_spacing l' = Return l'.
Proof.
  eexists. split; [reflexivity|]. cbn [v_text set_text].
  split; [apply whitespace_collapse_sublist|].
  split; [apply whitespace_collapse_other|].
  unfold fix_spacing. cbn [v_text set_text]. f_equal.
  fold (whitespace_collapse (v_text l)).
  fold (whitespace_collapse (whitespace_collapse (v_text l))).
  rewrite (whitespace_collapse_id (whitespace_collapse (v_text l)))
    by apply whitespace_collapse_no_double_space.
  done.
Qed.

Lemma blank_nil : blank [].
Proof. constructor. Qed.

Lemma lstrip_split s : ∃ a, s = a ++ Py.lstrip s ∧ blank a.
Proof.
  induction s as [|c r (a & Ha & Hb)].
  { exists []. split; [done | apply blank_nil]. }
  cbn [Py.lstrip]. destruct (Py.isspace c) eqn:Hc.
  - exists (c :: a). split; [cbn [app]; by f_equal|].
    constructor; [by rewrite Hc | done].
  - exists []. split; [done | apply blank_nil].
Qed.

Lemma rstrip_split s : ∃ b, s = Py.rstrip s ++ b ∧ blank b.
Proof.
  induction s as [|c r (b & Hb & Hbl)].
  { exists []. split; [done | apply blank_nil]. }
  rewrite rstrip_cons. destruct (bool_decide (Py.rstrip r = [])) eqn:Hr.
  - apply bool_decide_eq_true in Hr. rewrite Hr in Hb. cbn [app] in Hb.
    subst b. destruct (Py.isspace c) eqn:Hc.
    + exists (c :: r). split; [done|]. constructor; [by rewrite Hc | done].
    + exists r. split; done.
  - exists b. split; [cbn [app]; by f_equal | done].
Qed.

(** X6: the string that [preprocess] returns, which it does when the call
    of [html.unescape] returns, is the recomposed text with a run of
    whitespace characters taken off each end, and nothing else. *)
Theorem preprocess_trims_ends (L : PyLib) (s : text) (o : Options) :
  (entities o = false → returns (html_unescape L s)) →
  ∃ d r a b,
    entity_decode L o s = Return d
    ∧ preprocess L s o = Return r
    ∧ unicode_recompose L (whitespace_collapse (conditional_steps L o d))
      = a ++ r ++ b
    ∧ blank a ∧ blank b.
Proof.
  intros [d Hd]%(entity_decode_returns L s o).
  set (t := unicode_recompose L (whitespace_collapse (conditional_steps L o d))).
  destruct (lstrip_split t) as (a & Ha & Hal).
  destruct (rstrip_split (Py.lstrip t)) as (b & Hb & Hbl).
  exists d, (Py.strip t), a, b. split; [done|].
  split; [by apply preprocess_decoded|].
  split; [|done]. unfold Py.strip. by rewrite <- Hb.
Qed.

Lemma preprocess_trims_ends_witness :
  ∃ d r a b,
    entity_decode RefLib default_options (Py.str " a&amp;b ") = Return d
    ∧ preprocess RefLib (Py.str " a&amp;b ") default_options = Return r
    ∧ unicode_recompose RefLib
        (whitespace_collapse (conditional_steps RefLib default_options d))
      = a ++ r ++ b
    ∧ blank a ∧ blank b.
Proof.
  apply (preprocess_trims_ends RefLib (Py.str " a&amp;b ") default_options).
  intros _. by eexists.
Defined.

(** ** Options that do not matter *)

(** X7: [fill] is read by the punctuation, number and space-joining
    statements only: when [punctuation] and [numbers] are true and
    [remove_spaces] is false, the result is the same for every [fill]. *)
Theorem preprocess_without_fill (L : PyLib) (s f : text) (o : Options) :
  punctuation o = true →
  numbers o = true →
  remove_spaces o = false →
  preprocess L s (with_fill o f) = preprocess L s o.
Proof.
  intros Hp Hn Hs. rewrite !preprocess_returns.
  unfold normalize_spec, entity_decode.
  replace (entities (with_fill o f)) with (entities o) by by destruct o.
  destruct (if negb (entities o) then html_unescape L s else Return s)
    as [d|e]; cbn [mbind exc_bind]; [|done].
  f_equal.
  unfold steps_after_decoding, conditional_steps, first_steps, with_fill.
  step. by rewrite Hp, Hn, Hs.
Qed.

Lemma preprocess_without_fill_witness :
  preprocess RefLib (Py.str "a, 1") (with_fill keeping_everything (Py.str "XX"))
  = preprocess RefLib (Py.str "a, 1") keeping_everything.
Proof.
  apply (preprocess_without_fill RefLib (Py.str "a, 1") (Py.str "XX")
           keeping_everything); reflexivity.
Defined.

Lemma isspace_newline_to_space c :
  Py.isspace (newline_to_space c) = Py.isspace c.
Proof. unfold newline_to_space. case_bool_decide; [by subst | done]. Qed.

Lemma newline_to_space_other c :
  Py.isspace c = false → newline_to_space c = c.
Proof.
  intros Hc. unfold newline_to_space. case_bool_decide; [by subst | done].
Qed.

Lemma split_ws_newline_to_space s :
  Py.split_ws (newline_to_space <$> s) = Py.split_ws s.
Proof.
  induction s as [|c r IH]; [done|].
  cbn [fmap list_fmap]. fold (fmap newline_to_space r).
  rewrite !split_ws_cons, isspace_newline_to_space, IH.
  destruct (Py.isspace c) eqn:Hc; [done|].
  rewrite newline_to_space_other by done.
  assert (bool_decide (newline_to_space <$> r = []) || starts_with_space (newline_to_space <$> r)
          = bool_decide (r = []) || starts_with_space r) as ->; [|done].
  destruct r as [|d r]; [done|]. unfold starts_with_space.
  cbn [fmap list_fmap head]. rewrite isspace_newline_to_space.
  by rewrite !bool_decide_eq_false_2.
Qed.

(** X8: a newline is whitespace, so when [remove_spaces] is true the result
    is the same whether [remove_lines] is set or not. *)
Theorem preprocess_lines_under_spaces (L : PyLib) (s : text) (b : bool)
    (o : Options) :
  remove_spaces o = true →
  preprocess L s (with_remove_lines o b) = preprocess L s o.
Proof.
  intros Hs. rewrite !preprocess_returns.
  unfold normalize_spec, entity_decode.
  replace (entities (with_remove_lines o b)) with (entities o)
    by by destruct o.
  destruct (if negb (entities o) then html_unescape L s else Return s)
    as [d|e]; cbn [mbind exc_bind]; [|done].
  f_equal.
  unfold steps_after_decoding, conditional_steps, first_steps,
    with_remove_lines.
  step. rewrite Hs. cbn [when]. do 4 f_equal.
  unfold space_join. f_equal.
  destruct b, (remove_lines o); cbn [when]; try done.
  - by rewrite line_join_fmap, split_ws_newline_to_space.
  - by rewrite line_join_fmap, split_ws_newline_to_space.
Qed.

Lemma preprocess_lines_under_spaces_witness :
  preprocess RefLib [97; 10; 98; 32; 99] (with_remove_lines joining_spaces true)
  = preprocess RefLib [97; 10; 98; 32; 99] joining_spaces.
Proof.
  apply (preprocess_lines_under_spaces RefLib [97; 10; 98; 32; 99] true
           joining_spaces).
  reflexivity.
Defined.

(** ** The result on ASCII text *)

Lemma lower_char_fixed c : Ref.lower_char c = c → ¬ 65 ≤ c ≤ 90.
Proof. unfold Ref.lower_char. case_bool_decide; lia. Qed.

Lemma jv_char_fixed c :
  Ref.jv_char c = c → c ≠ 106 ∧ c ≠ 118 ∧ c ≠ 74 ∧ c ≠ 86.
Proof. unfold Ref.jv_char. repeat case_bool_decide; lia. Qed.

(** X9: on ASCII text (without [&] unless [entities] is true) and with
    [fill] one space, the result is ASCII; it holds no capital letter when
    [lower] is true, none of [j], [v], [J], [V] when [normalize] is true, no
    character of the punctuation set when [punctuation] is false, no digit
    when [numbers] is false and no newline when [remove_lines] is true.
    The library is asked to do on ASCII text what CPython does. *)
Theorem preprocess_ascii_result (L : PyLib) (s : text) (o : Options) :
  ascii_library L →
  fill o = [32] →
  ascii s →
  (entities o = false → Forall (λ c, c ≠ 38) s) →
  ∃ r, preprocess L s o = Return r
       ∧ ascii r
       ∧ (lower o = true → Forall (λ c, ¬ 65 ≤ c ≤ 90) r)
       ∧ (normalize o = true →
          Forall (λ c, c ≠ 106 ∧ c ≠ 118 ∧ c ≠ 74 ∧ c ≠ 86) r)
       ∧ (punctuation o = false →
          Forall (λ c, c ∉ misc_chars ++ punctuation_chars) r)
       ∧ (numbers o = false → Forall (λ c, c ∉ digit_chars) r)
       ∧ (remove_lines o = true → Forall (λ c, c ≠ 10) r).
Proof.
  intros HL Hfill Hs Hamp. pose proof (settled_start o s Hs Hamp) as H0.
  eexists. split.
  { apply preprocess_decoded. by apply entity_decode_settled. }
  pose proof (steps_settled L o HL Hfill s H0) as Hr.
  split; [by eapply settled_ascii|].
  repeat split; intros Hb; (eapply Forall_impl; [exact Hr|]); intros c Hc.
  - apply lower_char_fixed. apply Hc; [lia | done].
  - apply jv_char_fixed. apply Hc; [lia | done].
  - apply Hc; [lia | done].
  - apply Hc; [lia | done].
  - apply Hc; [lia | done].
Qed.

Lemma preprocess_ascii_result_witness :
  ∃ r, preprocess RefLib (Py.str "Jove, VENI 42!") default_options = Return r
       ∧ ascii r
       ∧ (lower default_options = true → Forall (λ c, ¬ 65 ≤ c ≤ 90) r)
       ∧ (normalize default_options = true →
          Forall (λ c, c ≠ 106 ∧ c ≠ 118 ∧ c ≠ 74 ∧ c ≠ 86) r)
       ∧ (punctuation default_options = false →
          Forall (λ c, c ∉ misc_chars ++ punctuation_chars) r)
       ∧ (numbers default_options = false → Forall (λ c, c ∉ digit_chars) r)
       ∧ (remove_lines default_options = true → Forall (λ c, c ≠ 10) r).
Proof.
  apply (preprocess_ascii_result RefLib (Py.str "Jove, VENI 42!")
           default_options).
  - apply ref_ascii_library.
  - reflexivity.
  - apply (bool_decide_unpack _). by vm_compute.
  - intros _. apply (bool_decide_unpack _). by vm_compute.
Defined.

(** ** Space joining, line 75 *)

Lemma space_join_no_space by_ s :
  Forall (λ c, Py.isspace c = false) by_ →
  Forall (λ c, Py.isspace c = false) (space_join by_ s).
Proof.
  intros Hby. unfold space_join. apply join_Forall; [done|].
  eapply Forall_impl; [apply split_ws_words|]. by intros w [_ Hw].
Qed.

Lemma space_join_again by_ s :
  by_ = [32] ∨ Forall (λ c, Py.isspace c = false) by_ →
  space_join by_ (space_join by_ s) = space_join by_ s.
Proof.
  intros [-> | Hby].
  - unfold space_join. by rewrite split_ws_join by apply split_ws_words.
  - pose proof (space_join_no_space by_ s Hby) as Hx.
    unfold space_join at 1. destruct Hx as [|c w Hc Hw]; [done|].
    by rewrite split_ws_word_end.
Qed.

(** X10: when [fill] is one space or holds no whitespace, running the
    space-joining statement again changes nothing; when [fill] holds no
    whitespace, no whitespace is left in the text. *)
Theorem space_join_statement (l : Locals) :
  v_remove_spaces l = true →
  v_fill l = [32] ∨ Forall (λ c, Py.isspace c = false) (v_fill l) →
  ∃ l', if_remove_spaces l = Return l'
        ∧ if_remove_spaces l' = Return l'
        ∧ (Forall (λ c, Py.isspace c = false) (v_fill l) →
           Forall (λ c, Py.isspace c = false) (v_text l')).
Proof.
  intros Hb Hfill. eexists. split; [apply if_remove_spaces_returns|].
  rewrite Hb. cbn [when]. split.
  - rewrite if_remove_spaces_returns. cbn [v_remove_spaces v_text v_fill set_text].
    rewrite Hb. cbn [when]. by rewrite space_join_again.
  - intros Hf. cbn [v_text set_text]. by apply space_join_no_space.
Qed.

Lemma space_join_statement_witness :
  ∃ l', if_remove_spaces
          (bind_arguments [97; 32; 32; 98; 9; 99] joining_with_underscore)
        = Return l'
        ∧ if_remove_spaces l' = Return l'
        ∧ (Forall (λ c, Py.isspace c = false)
             (v_fill (bind_arguments [97; 32; 32; 98; 9; 99]
                        joining_with_underscore)) →
           Forall (λ c, Py.isspace c = false) (v_text l')).
Proof.
  apply (space_join_statement
           (bind_arguments [97; 32; 32; 98; 9; 99] joining_with_underscore)).
  - reflexivity.
  - right. by repeat constructor.
Defined.

(** ** Diacritics and punctuation *)

(** X11: [remove_diacriticals] returns an ASCII text as it is (the empty
    text included), for a library whose NFD leaves ASCII text alone and
    gives no ASCII code point a combining class. *)
Theorem remove_diacriticals_ascii (L : PyLib) (s : text) :
  (∀ t, ascii t → unicodedata_normalize L NFD t = t) →
  (∀ c, 0 ≤ c < 128 → unicodedata_combining L c = 0) →
  ascii s →
  remove_diacriticals L s = Return s.
Proof.
  intros Hn Hc Hs. rewrite remove_diacriticals_returns. f_equal.
  unfold diacritic_strip. rewrite Hn by done. apply filter_id.
  eapply Forall_impl; [exact Hs|]. intros c Ha. simpl.
  unfold deleted. rewrite Hc by done.
  cbn [Z.eqb negb]. rewrite andb_false_r. simpl. tauto.
Qed.

Lemma remove_diacriticals_ascii_witness :
  remove_diacriticals RefLib (Py.str "arma uirumque")
  = Return (Py.str "arma uirumque").
Proof.
  apply (remove_diacriticals_ascii RefLib (Py.str "arma uirumque")).
  - intros t Ht. apply (normalize_ascii RefLib ref_ascii_library NFD t Ht).
  - apply (combining_ascii RefLib ref_ascii_library).
  - apply (bool_decide_unpack _). by vm_compute.
Defined.

Lemma printable_not_stripped c :
  33 ≤ c ≤ 126 → c ∉ misc_chars ++ punctuation_chars → alphanumeric c.
Proof.
  intros Hc. assert (c ∈ seqZ 33 94) as Hin by (apply elem_of_seqZ; lia).
  revert c Hin Hc.
  apply (proj1 (Forall_forall
                  (λ c, 33 ≤ c ≤ 126 → c ∉ misc_chars ++ punctuation_chars →
                        alphanumeric c) (seqZ 33 94))).
  unfold alphanumeric. apply (bool_decide_unpack _). by vm_compute.
Qed.

(** X12: when it runs, the punctuation statement leaves no character of its
    set in the text unless [fill] holds one, and it leaves a text without
    such characters as it is; with [fill] one space, the printable ASCII
    characters that remain are letters and digits. *)
Theorem punctuation_statement_strips (l : Locals) :
  truth (v_punctuation l) = false →
  ∃ l', if_not_punctuation l = Return l'
        ∧ (Forall (λ c, c ∉ misc_chars ++ punctuation_chars) (v_fill l) →
           Forall (λ c, c ∉ misc_chars ++ punctuation_chars) (v_text l'))
        ∧ (Forall (λ c, c ∉ misc_chars ++ punctuation_chars) (v_text l) →
           v_text l' = v_text l)
        ∧ (v_fill l = [32] →
           Forall (λ c, 33 ≤ c ≤ 126 → alphanumeric c) (v_text l')).
Proof.
  intros Hp. eexists. split; [apply if_not_punctuation_returns|].
  rewrite Hp. cbn [v_text set_text set_punctuation v_fill].
  unfold punctuation_strip. split; [apply replace_chars_removes|].
  split; [apply replace_chars_id|].
  intros ->. eapply Forall_impl.
  - apply replace_chars_removes. constructor; [|constructor].
    by apply isspace_not_stripped.
  - intros c Hc Hr. by apply printable_not_stripped.
Qed.

Lemma punctuation_statement_strips_witness :
  ∃ l', if_not_punctuation (bind_arguments (Py.str "a, b.") default_options)
        = Return l'
        ∧ (Forall (λ c, c ∉ misc_chars ++ punctuation_chars)
             (v_fill (bind_arguments (Py.str "a, b.") default_options)) →
           Forall (λ c, c ∉ misc_chars ++ punctuation_chars) (v_text l'))
        ∧ (Forall (λ c, c ∉ misc_chars ++ punctuation_chars)
             (v_text (bind_arguments (Py.str "a, b.") default_options)) →
           v_text l' = v_text (bind_arguments (Py.str "a, b.") default_options))
        ∧ (v_fill (bind_arguments (Py.str "a, b.") default_options) = [32] →
           Forall (λ c, 33 ≤ c ≤ 126 → alphanumeric c) (v_text l')).
Proof.
  apply (punctuation_statement_strips
           (bind_arguments (Py.str "a, b.") default_options)).
  reflexivity.
Defined.

(** ** Clean text *)

Lemma letter_or_space_not_stripped c :
  c = 32 ∨ 97 ≤ c ≤ 122 → c ∉ misc_chars ++ punctuation_chars.
Proof.
  intros Hc Hin. revert c Hin Hc.
  apply (proj1 (Forall_forall (λ c, ¬ (c = 32 ∨ 97 ≤ c ≤ 122))
                  (misc_chars ++ punctuation_chars))).
  apply (bool_decide_unpack _). by vm_compute.
Qed.

Lemma letter_or_space_not_digit c : c = 32 ∨ 97 ≤ c ≤ 122 → c ∉ digit_chars.
Proof. intros Hc Hin%elem_of_digit_chars. unfold is_digit in Hin.
  apply bool_decide_eq_true in Hin. lia.
Qed.

(** X13: with the options at their defaults, a text of small ASCII letters
    other than [j] and [v], its words separated by single spaces and with
    no space at either end, is returned as it is.  The library is asked
    to do on ASCII text what CPython does. *)
Theorem preprocess_clean_text (L : PyLib) (s : text) :
  ascii_library L →
  Forall (λ c, c = 32 ∨ 97 ≤ c ≤ 122 ∧ c ≠ 106 ∧ c ≠ 118) s →
  has_double_space s = false →
  starts_with_space s = false →
  ends_with_space s = false →
  preprocess L s default_options = Return s.
Proof.
  intros HL Hs Hd Hst Hen.
  assert (entity_decode L default_options s = Return s) as Hdec.
  { unfold entity_decode, default_options. cbn [entities negb].
    apply (unescape_no_amp L HL).
    eapply Forall_impl; [exact Hs|]. intros c Hc. simpl in Hc. lia. }
  rewrite (preprocess_decoded L s default_options s Hdec). f_equal.
  apply (steps_fixed L default_options); try done.
  eapply Forall_impl; [exact Hs|]. intros c Hc. simpl in Hc.
  unfold settled. split; [lia|]. split; [intros _; lia|].
  split. { intros _ _. unfold Ref.lower_char. case_bool_decide; [lia | done]. }
  split. { intros _ _. unfold Ref.jv_char. repeat case_bool_decide; lia. }
  split. { intros _ _. apply letter_or_space_not_stripped. lia. }
  split. { intros _ _. apply letter_or_space_not_digit. lia. }
  done.
Qed.

Lemma preprocess_clean_text_witness :
  preprocess RefLib (Py.str "arma uirumque cano") default_options
  = Return (Py.str "arma uirumque cano").
Proof.
  apply (preprocess_clean_text RefLib (Py.str "arma uirumque cano")).
  - apply ref_ascii_library.
  - apply (bool_decide_unpack _). by vm_compute.
  - reflexivity.
  - reflexivity.
  - reflexivity.
Defined.

(** ** Instances *)

Lemma unhyphenate_only_deletes_witness :
  ∃ l', if_unhyphenate (bind_arguments (Py.str "re-use") unhyphenating)
        = Return l'
        ∧ v_text l' `sublist_of` Py.str "re-use"
        ∧ v_text l' = Py.str "re-use".
Proof.
  destruct (unhyphenate_only_deletes
              (bind_arguments (Py.str "re-use") unhyphenating))
    as (l' & H1 & H2 & H3 & _).
  exists l'. split; [exact H1|]. split; [exact H2|].
  apply H3. apply (bool_decide_unpack _). by vm_compute.
Defined.

Lemma strip_statements_length_witness :
  ∃ l', if_not_numbers (bind_arguments (Py.str "a1b22") (with_fill default_options (Py.str "XX")))
        = Return l'
        ∧ length (v_text l') = 8%nat.
Proof.
  destruct (strip_statements_length
              (bind_arguments (Py.str "a1b22")
                 (with_fill default_options (Py.str "XX"))))
    as [_ H].
  destruct (H eq_refl) as (l' & H1 & H2).
  exists l'. split; [exact H1|]. rewrite H2. reflexivity.
Defined.
